(** * python-mal: the [User] entity of [myanimelist/user.py]

    A shallow embedding of [src/myanimelist/user.py] (Python 2): the
    page parsers ([parse_sidebar], [parse], [parse_reviews],
    [parse_recommendations], [parse_clubs], [parse_friends]), the loaders
    ([load], [load_reviews], ...) and the lazily loaded properties.

    - A Python dict with string keys ([user_info], the attributes of an
      object) is a [gmap string value]; a dict keyed by objects is an
      association list compared with the objects' [__eq__].
    - A parsed page (a [bs4] tree) is represented by the answers it gives
      to the queries the parsers put to it ([Document]); an answer that
      Python computes with an expression that can raise is a [result].
    - Code that mutates [user_info] or [self] and may raise half-way is
      written in a state-and-exception monad [ST] whose state survives a
      raise, as the mutated Python object does. *)

From stdpp Require Import base option list strings gmap fin_maps.
From Stdlib Require Import ZArith Ascii DecimalString DecimalNat.

Local Open Scope Z_scope.
Local Open Scope string_scope.

(** ** Python values *)

(** The natural key of an entity: a numeric id, or a name (users). *)
Inductive natural_key :=
| IdKey (n : Z)
| NameKey (s : string).

(** A Python float, as sign, mantissa and binary exponent. *)
Inductive pyfloat :=
| Finite (negative : bool) (mantissa : N) (exponent : Z)
| Infinity (negative : bool)
| NaN.

#[warnings="-register-all"]
Inductive value :=
| VNone
| VInt (z : Z)
| VFloat (f : pyfloat)
| VStr (s : string)                 (* a byte string, 'abc' *)
| VUnicode (s : string)             (* a unicode string, u'abc' *)
| VDatetime (timestamp : Z)         (* a datetime.datetime *)
| VObj (cls : string) (key : natural_key) (attrs : gmap string value)
                                    (* an entity: class, natural key, attributes *)
| VList (l : list value)
| VDict (d : list (value * value)).

Abbreviation attr_dict := (gmap string value).
Abbreviation pydict := (list (value * value)).

(** Exceptions: [InvalidUserError] carries the offending username; every
    other exception is named by its class. *)
Inductive exn :=
| InvalidUserError (username : value)
| PyError (cls : string).

Inductive result (A : Type) :=
| Ok (a : A)
| Raise (e : exn).
Arguments Ok {A} a.
Arguments Raise {A} e.

Definition AttributeError := PyError "AttributeError".
Definition IndexError := PyError "IndexError".
Definition KeyError := PyError "KeyError".
Definition TypeError := PyError "TypeError".
Definition ValueError := PyError "ValueError".
Definition UnicodeEncodeError := PyError "UnicodeEncodeError".

(** [x.attr] where [x] may be [None]. *)
Definition not_none {A} (x : option A) : result A :=
  match x with
  | Some a => Ok a
  | None => Raise AttributeError
  end.

(** [l[i]] on a list. *)
Definition index {A} (l : list A) (i : nat) : result A :=
  match l !! i with
  | Some a => Ok a
  | None => Raise IndexError
  end.

(** Truth value of an object ([if x], [not x]). *)
Definition truthy (v : value) : bool :=
  match v with
  | VNone => false
  | VInt z => negb (z =? 0)%Z
  | VFloat (Finite _ m _) => negb (m =? 0)%N
  | VFloat _ => true
  | VStr s | VUnicode s => negb (String.eqb s "")
  | VDatetime _ => true
  | VObj _ _ _ => true
  | VList l => match l with [] => false | _ => true end
  | VDict d => match d with [] => false | _ => true end
  end.

(** ** Dicts keyed by objects *)

Definition natural_key_eqb (a b : natural_key) : bool :=
  match a, b with
  | IdKey n, IdKey m => (n =? m)%Z
  | NameKey s, NameKey t => String.eqb s t
  | _, _ => false
  end.

(** [a == b] for dict keys.  Entities compare by class and natural key
    only, whatever their attributes; byte and unicode strings with the
    same characters are the same key. *)
Definition key_eqb (a b : value) : bool :=
  match a, b with
  | VNone, VNone => true
  | VInt n, VInt m => (n =? m)%Z
  | (VStr s | VUnicode s), (VStr t | VUnicode t) => String.eqb s t
  | VDatetime n, VDatetime m => (n =? m)%Z
  | VObj c k _, VObj c' k' _ => String.eqb c c' && natural_key_eqb k k'
  | _, _ => false
  end.

(** [d[k]] lookup, [d.get(k)]. *)
Fixpoint dict_get (k : value) (d : pydict) : option value :=
  match d with
  | [] => None
  | (k', v') :: d' => if key_eqb k k' then Some v' else dict_get k d'
  end.

(** [d[k] = v]: an existing key keeps its key object and takes the new
    value; a new key is added. *)
Fixpoint dict_set (k v : value) (d : pydict) : pydict :=
  match d with
  | [] => [(k, v)]
  | (k', v') :: d' =>
      if key_eqb k k' then (k', v) :: d' else (k', v') :: dict_set k v d'
  end.

(** ** State and exceptions *)

(** A computation on a mutable object of type [S]: the object as it is
    when the computation returns or raises. *)
Definition ST (S A : Type) : Type := S → result A * S.

Definition ret {S A} (a : A) : ST S A := λ s, (Ok a, s).

Definition bind {S A B} (c : ST S A) (f : A → ST S B) : ST S B :=
  λ s, match c s with
       | (Ok a, s') => f a s'
       | (Raise e, s') => (Raise e, s')
       end.

Definition raise {S A} (e : exn) : ST S A := λ s, (Raise e, s).

Definition lift {S A} (r : result A) : ST S A := λ s, (r, s).

Definition modify {S} (f : S → S) : ST S unit := λ s, (Ok tt, f s).

Notation "'let!' x ':=' c 'in' k" := (bind c (fun x => k))
  (at level 10, x name, c at level 100, k at level 200).
Notation "'let!' ' p ':=' c 'in' k" := (bind c (fun x => match x with p => k end))
  (at level 10, p pattern, c at level 100, k at level 200).
Notation "c >> k" := (bind c (fun _ => k))
  (at level 80, right associativity).

(** [for x in xs: body(x)] *)
Fixpoint for_ {S X} (xs : list X) (body : X → ST S unit) : ST S unit :=
  match xs with
  | [] => ret tt
  | x :: xs' => body x >> for_ xs' body
  end.

(** The value a function returns after building [user_info] from [init]:
    the dict is lost when the function raises. *)
Definition returning {S} (c : ST S unit) (init : S) : result S :=
  match c init with
  | (Ok _, s) => Ok s
  | (Raise e, _) => Raise e
  end.

(** [try: body / except: if not suppress: raise] *)
Definition try_ {S} (suppress_parse_exceptions : bool) (body : ST S unit) : ST S unit :=
  λ s, match body s with
       | (Ok _, s') => (Ok tt, s')
       | (Raise e, s') =>
           if suppress_parse_exceptions then (Ok tt, s') else (Raise e, s')
       end.

(** Statements on [user_info]. *)
Abbreviation P := (ST attr_dict).

(** [user_info[k] = v] *)
Definition assign (k : string) (v : value) : P unit :=
  modify (λ user_info, <[k := v]> user_info).

(** [user_info[k].append(v)] *)
Definition append_to (k : string) (v : value) : P unit :=
  λ user_info,
    match user_info !! k with
    | Some (VList l) => (Ok tt, <[k := VList (l ++ [v])]> user_info)
    | Some _ => (Raise AttributeError, user_info)
    | None => (Raise KeyError, user_info)
    end.

(** [user_info[k][k'] = v] *)
Definition store_in (k : string) (k' v : value) : P unit :=
  λ user_info,
    match user_info !! k with
    | Some (VDict d) => (Ok tt, <[k := VDict (dict_set k' v d)]> user_info)
    | Some _ => (Raise TypeError, user_info)
    | None => (Raise KeyError, user_info)
    end.

(** ** Builtins on strings *)

(** [text.replace(c, '')] for a one-character [c]. *)
Fixpoint remove_char (c : Ascii.ascii) (text : string) : string :=
  match text with
  | EmptyString => EmptyString
  | String a rest =>
      if Ascii.eqb a c then remove_char c rest else String a (remove_char c rest)
  end.

(** The text of a page is unicode; a character of a [string] stands for
    a code point below 256.  [is_space] is the white space of unicode
    strings among these ([unicode.isspace]): U+0009 to U+000D, U+001C to
    U+0020, U+0085 and U+00A0. *)
Definition is_space (a : Ascii.ascii) : bool :=
  let n := Ascii.nat_of_ascii a in
  (9 <=? n)%nat && (n <=? 13)%nat || (28 <=? n)%nat && (n <=? 32)%nat
  || (n =? 133)%nat || (n =? 160)%nat.

Fixpoint lstrip (s : string) : string :=
  match s with
  | EmptyString => EmptyString
  | String a rest => if is_space a then lstrip rest else s
  end.

Definition strip (s : string) : string :=
  String.rev (lstrip (String.rev (lstrip s))).

Fixpoint digits (s : string) (acc : Z) : option Z :=
  match s with
  | EmptyString => Some acc
  | String a rest =>
      let n := Ascii.nat_of_ascii a in
      if (48 <=? n)%nat && (n <=? 57)%nat
      then digits rest (10 * acc + Z.of_nat (n - 48))
      else None
  end.

Definition unsigned (s : string) : result Z :=
  match s with
  | EmptyString => Raise ValueError
  | _ => match digits s 0 with Some n => Ok n | None => Raise ValueError end
  end.

(** The string has the character U+0000. *)
Fixpoint has_nul (s : string) : bool :=
  match s with
  | EmptyString => false
  | String a rest => (Ascii.nat_of_ascii a =? 0)%nat || has_nul rest
  end.

(** [int(text)] on a unicode string, as CPython 2.7 computes it: the
    string is encoded for the decimal codec (white space becomes a blank,
    U+0000 cannot be encoded), then read as white space, an optional
    sign, white space again, decimal digits and white space;
    [ValueError] otherwise.  Below U+0100 the decimal digits are 0 to 9
    only. *)
Definition int (text : string) : result Z :=
  if has_nul text then Raise UnicodeEncodeError else
  match strip text with
  | String "+"%char rest => unsigned (lstrip rest)
  | String "-"%char rest =>
      match unsigned (lstrip rest) with Ok n => Ok (- n) | Raise e => Raise e end
  | s => unsigned s
  end.

(** ** Parsed pages *)

(** A [ul class="user-status"] list: its [span]s in document order, each
    with its text and the outcome of [span.nextSibling.text]. *)
Abbreviation StatusElt := (list (string * result string)).

(** [elt.find(u'span', text=finder)]: the first such span, if any. *)
Definition find_span (finder : string) (elt : StatusElt) : option (result string) :=
  snd <$> List.find (λ span, String.eqb (fst span) finder) elt.

(** A link to a media page: [link_parts[1]] (the method of the session
    to call), [int(link_parts[2])] and the link's text. *)
Abbreviation MediaLink := (string * Z * string)%type.

(** [div class="user-profile"], the sidebar. *)
Record UserProfile := {
  (* find(u'img'): [None] without a picture, else the outcome of
     [picture_tag.get(u'src').decode('utf-8')] *)
  find_img : option (result string);
  (* int(find(u'a', text=u'Blog Feed').get(u'href').split(u'&id=')[1]) *)
  find_blog_feed_id : result Z;
  (* find_all(u'ul', {u'class': u'user-status'}, recursive=False) *)
  find_all_user_status : list StatusElt;
  (* find(text='Also Available at'): [None] when absent, else the outcome
     of [website_tag.parent.findNext(u'a').text] *)
  find_also_available : option (result string)
}.

(** An [li] of a favorites list. *)
Record FavoriteItem := {
  (* link_tag = elt.find_all(u'a')[1]: int(link_parts[2]) and link_tag.text *)
  fav_link : result (Z * string);
  (* media_link_tag = link_tag.nextSibling.find(u'a') (characters only) *)
  fav_media_link : result MediaLink
}.

(** A [tr] of the last-list-updates table. *)
Record ListUpdateRow := {
  (* media_link = cols[1].find(u'a') *)
  lu_media_link : result MediaLink;
  (* progress_div, when present: status, episodes and total_episodes of
     [re.match(...).groupdict()] *)
  lu_progress : option (result (string * option Z * option Z));
  (* time_div.text, when time_div is present *)
  lu_time : option string
}.

(** An [li] of a statistics list. *)
Record StatsMetric := {
  (* metric.find(u'a').text and int(metric.find(u'span').text.replace(',','')) *)
  metric_link : result (string * Z);
  (* parts = metric.find_all(u'span'): parts[0].text and
     int(parts[1].text.replace(',','')) *)
  metric_parts : result (string * Z)
}.

(** [div class="stats anime"] or [div class="stats manga"]. *)
Record StatsHeader := {
  (* float(find(text=re.compile('Days')).parent.nextSibling) *)
  find_days : result pyfloat;
  (* float(find(text=re.compile('Mean Score')).parent.nextSibling) *)
  find_mean_score : result pyfloat;
  (* find_all(u'ul'), each with its find_all(u'li') *)
  find_all_ul : list (list StatsMetric)
}.

(** The element with [id="statistics"]. *)
Record Statistics := {
  find_stats_anime : option StatsHeader;
  find_stats_manga : option StatsHeader
}.

(** A [div class="borderDark"] of the reviews page. *)
Record ReviewRow := {
  (* (meta_elt, review_elt) = row.find_all(u'div', recursive=False)[0:2] *)
  rv_divs : result unit;
  (* meta_rows[0].find(u'div').text *)
  rv_date : result string;
  (* media_link = meta_rows[0].find(u'a') *)
  rv_media_link : result MediaLink;
  (* people_helped and people_total of the match on helpfuls.text *)
  rv_helpful : result (Z * Z);
  (* media_consumed and media_total ([None] for u'?') *)
  rv_consumption : result (Z * option Z);
  (* int(meta_rows[3].find(u'div').text.replace(u'Overall Rating: ', '')) *)
  rv_rating : result Z;
  (* review_elt.text.strip() once its div and a children are extracted *)
  rv_text : result string
}.

(** A [div class="spaceit borderClass"] of the recommendations page. *)
Record RecommendationRow := {
  (* animes[0].find(u'a', recursive=False) *)
  rc_liked_link : result MediaLink;
  (* animes[1].find(u'a', recursive=False) *)
  rc_recommended_link : result MediaLink;
  (* row.find(u'p').text *)
  rc_text : result string;
  (* recommendation_menu.text.split(u' - ')[1] after extract_tags *)
  rc_date : result string
}.

(** A [div class="friendHolder"] of the friends page. *)
Record FriendRow := {
  (* cols[1].find(u'a').text, with cols = block.find_all(u'div') *)
  fr_friend_link : result string;
  (* cols[2].text.strip() when len(cols) > 2 and cols[2].text != u'' *)
  fr_last_active : option string;
  (* cols[3].text.replace(u'Friends since', '').strip() when
     len(cols) > 3 and cols[3].text != u'' *)
  fr_since : option string
}.

(** The second column of the content table of a list page. *)
Record SecondCol := {
  (* find_all(u'div', {u'class': u'borderDark'}, recursive=False) *)
  find_all_borderDark : list ReviewRow;
  (* find_all(u"div", {u"class": u"spaceit borderClass"}) *)
  find_all_borderClass : list RecommendationRow;
  (* find(u'ol') with its find_all(u'li'): for each row,
     int(link_parts[1]) and club_link.text *)
  find_ol : option (list (result (Z * string)));
  (* find_all(u'div', {u'class': u'friendHolder'}) *)
  find_all_friendHolder : list FriendRow
}.

Record Document := {
  (* find(u'div', {u'class': u'error404'}) is there *)
  find_error404 : bool;
  (* find(u'div', {u'class': u'user-profile'}) *)
  find_user_profile : option UserProfile;
  (* int(re.search(u'\((\d+)\)', find(u'a', text=re.compile(u'All Comments')).text).group(1)) *)
  find_all_comments : result Z;
  (* find(u'div', {u'class': u'user-favorites'}) with its
     find_all(u'div', recursive=False), each with its find_all(u'li') *)
  find_user_favorites : option (list (list FavoriteItem));
  (* find(id='statistics') *)
  find_statistics : option Statistics;
  (* the first heading with 'Last List Updates' and its
     findNext(u'table'), when both are there: find_all(u'tr') *)
  find_list_updates_table : option (list ListUpdateRow);
  (* find(u'div', {u'class': u'profile-about-user'}): [None] when absent,
     else the outcome of [about_header.find(u'div').text.strip()] *)
  find_profile_about_user : option (result string);
  (* find(u'div', {u'id': u'content'}).find(u'table').find(u'tr')
       .find_all(u'td', recursive=False)[1] *)
  find_second_col : result SecondCol
}.

(** ** The session and the [utilities] module *)

Record Session := {
  (* catch-all handlers swallow the exception when set *)
  suppress_parse_exceptions : bool;
  (* session.session.get(url).text, parsed by utilities.get_clean_dom: the
     page served for [url] after the requests made so far *)
  get : list string → string → result Document;
  (* session.anime(id), session.manga(id), ..., getattr(session, name)(key):
     a new entity of that class *)
  entity : string → natural_key → result value
}.

Class Utilities := {
  (* utilities.parse_profile_date(text) *)
  parse_profile_date : string → result value;
  (* utilities.urlencode(username) *)
  urlencode : string → string
}.

(** ** [Base] *)

(** Modelled from the spec: [Base.set] (base.py is not among the
    sources).  It merges a mapping of attribute to value into the
    entity's state.  The spec speaks of it in two ways.  Its section 4.2
    and its examples want the reviews of [load_reviews] to be the merge of
    all pages and a full load to win over an earlier stub [set]; both need
    a later [set] to replace a value an earlier one stored, since
    [load_reviews] sets [reviews] at page 0 and again at its end, and no
    call of [set] in user.py passes anything but the mapping.  This
    definition follows them: every attribute named in [attr_dict] takes
    the value given, the others keep theirs.  Section 4.1 says instead
    that a later call does not overwrite an attribute that is set;
    [set_once] below follows those words.
    The attribute [_k] of an object is stored under [k]. *)
Definition set (attr_dict : attr_dict) (attrs : gmap string value) : gmap string value :=
  attr_dict ∪ attrs.


(** The value a statement gives for the attribute [self._k]: [None] for
    an attribute that is [None] and for one no statement has assigned.
    The program reads attributes with [getattr]. *)
Definition attr (attrs : gmap string value) (k : string) : value :=
  default VNone (attrs !! k).

(** [self._k], read by the program: an attribute that no statement has
    assigned raises [AttributeError]. *)
Definition getattr (attrs : gmap string value) (k : string) : result value :=
  match attrs !! k with
  | Some v => Ok v
  | None => Raise AttributeError
  end.

(** [obj.set(attr_dict)] on an entity held as a value. *)
Definition obj_set (attr_dict : gmap string value) (obj : value) : result value :=
  match obj with
  | VObj cls key attrs => Ok (VObj cls key (set attr_dict attrs))
  | _ => Raise AttributeError
  end.

(** ** [User] *)

Record User := {
  session : Session;
  username : string;
  attrs : gmap string value
}.

(** The attributes [__init__] sets to [None], in its order. *)
Definition init_attributes : list string :=
  [ "picture"; "favorite_anime"; "favorite_manga"; "favorite_characters";
    "favorite_people"; "last_online"; "gender"; "birthday"; "location";
    "website"; "join_date"; "num_comments"; "num_forum_posts"; "num_reviews";
    "num_recommendations"; "num_blog_posts"; "num_clubs"; "last_list_updates";
    "about"; "anime_stats"; "manga_stats"; "reviews"; "recommendations";
    "clubs"; "friends" ].

(** [User.__init__(self, session, username)] *)
Definition __init__ (session : Session) (username : value) : result User :=
  match username with
  | VUnicode name =>
      if (String.length name <? 1)%nat
      then Raise (InvalidUserError username)
      else Ok {| session := session;
                 username := name;
                 attrs := foldl (λ self k, <[k := VNone]> self) ∅ init_attributes |}
  | _ => Raise (InvalidUserError username)
  end.

Section Parsers.
Context `{Utilities}.

(** [user_info[k]] *)
Definition item (k : string) : P value :=
  λ user_info,
    (match user_info !! k with Some v => Ok v | None => Raise KeyError end,
     user_info).

(** [getattr(session, name)(key).set({attribute: text})]: the entity a link
    of a page refers to, with its display name. *)
Definition linked (session : Session) (name : string) (key : natural_key)
    (attribute text : string) : result value :=
  match entity session name key with
  | Ok obj => obj_set {[attribute := VUnicode text]} obj
  | Raise e => Raise e
  end.

(** [None] or [int(x)] for a regular-expression group. *)
Definition int_or_none (group : option Z) : value :=
  match group with
  | Some n => VInt n
  | None => VNone
  end.

(** [User.parse_sidebar(self, user_page)] *)
Definition parse_sidebar (self : User) (user_page : Document) : result attr_dict :=
  let suppress := suppress_parse_exceptions (session self) in
  returning (
    (* if MAL says the user doesn't exist, raise an InvalidUserError. *)
    (if find_error404 user_page
     then raise (InvalidUserError (VUnicode (username self)))
     else ret tt) >>
    let info_panel_first := find_user_profile user_page in
    try_ suppress (
      let! panel := lift (not_none info_panel_first) in
      match find_img panel with
      | Some src => let! picture := lift src in assign "picture" (VUnicode picture)
      | None => assign "picture" VNone
      end) >>
    try_ suppress (
      let! panel := lift (not_none info_panel_first) in
      let! id := lift (find_blog_feed_id panel) in
      assign "id" (VInt id)) >>
    let! panel := lift (not_none info_panel_first) in
    let status_elts := find_all_user_status panel in
    let fields :=
      [ ("last_online", "Last Online", parse_profile_date);
        ("gender", "Gender", λ x, Ok (VUnicode x));
        ("birthday", "Birthday", parse_profile_date);
        ("location", "Location", λ x, Ok (VUnicode x));
        ("join_date", "Joined", parse_profile_date) ] in
    let! general_elt := lift (index status_elts 0) in
    for_ fields (λ '(field_name, field_finder, parser),
      let field_elt := find_span field_finder general_elt in
      assign field_name VNone >>
      match field_elt with
      | Some next_sibling_text =>
          try_ suppress (
            let! text := lift next_sibling_text in
            let! parsed := lift (parser text) in
            assign field_name parsed)
      | None => ret tt
      end) >>
    (let! gender := item "gender" in
     if truthy gender then ret tt else assign "gender" (VStr "Not specified")) >>
    let fields :=
      [ ("num_forum_posts", "Forum Posts");
        ("num_reviews", "Reviews");
        ("num_recommendations", "Recommendations");
        ("num_blog_posts", "Blog Posts");
        ("num_clubs", "Clubs") ] in
    let! stats_elt := lift (index status_elts 2) in
    for_ fields (λ '(field_name, field_finder),
      let field_elt := find_span field_finder stats_elt in
      try_ suppress (
        let! next_sibling_text := lift (not_none field_elt) in
        let! text := lift next_sibling_text in
        let! count := lift (int (remove_char "," text)) in
        assign field_name (VInt count))) >>
    match find_also_available panel with
    | Some link_text =>
        let! website := lift link_text in assign "website" (VUnicode website)
    | None => ret tt
    end
  ) ∅.

(** A favorites block of [parse] whose entries are appended to a list:
    anime ([position] 0), manga (1) and people (3). *)
Definition favorites_list (self : User) (favorites_section : list (list FavoriteItem))
    (position : nat) (field_name name : string) : P unit :=
  try_ (suppress_parse_exceptions (session self)) (
    let! header := lift (index favorites_section position) in
    assign field_name (VList []) >>
    for_ header (λ elt,
      let! '(id, text) := lift (fav_link elt) in
      let! obj := lift (linked (session self) name (IdKey id) "title" text) in
      append_to field_name obj)).

(** The statistics blocks of [parse]: anime stats with
    [find_stats_anime], manga stats with [find_stats_manga]. *)
Definition stats_block (self : User) (stats_tag : option Statistics)
    (field_name : string) (find_stats : Statistics → option StatsHeader) : P unit :=
  try_ (suppress_parse_exceptions (session self)) (
    let! tag := lift (not_none stats_tag) in
    let stats_header := find_stats tag in
    assign field_name (VDict []) >>
    let! header := lift (not_none stats_header) in
    let! days := lift (find_days header) in
    store_in field_name (VStr "Days") (VFloat days) >>
    let! mean_score := lift (find_mean_score header) in
    store_in field_name (VStr "Mean Score") (VFloat mean_score) >>
    let stats_tables := find_all_ul header in
    (* watching, completed, etc *)
    let! table := lift (index stats_tables 0) in
    for_ table (λ metric,
      let! '(name, count) := lift (metric_link metric) in
      store_in field_name (VUnicode name) (VInt count)) >>
    (* total entries, rewatched, etc *)
    let! table := lift (index stats_tables 1) in
    for_ table (λ metric,
      let! '(name, count) := lift (metric_parts metric) in
      store_in field_name (VUnicode name) (VInt count))).

(** [User.parse(self, user_page)] *)
Definition parse (self : User) (user_page : Document) : result attr_dict :=
  let suppress := suppress_parse_exceptions (session self) in
  match parse_sidebar self user_page with
  | Raise e => Raise e
  | Ok user_info =>
    returning (
      (* parse general details. *)
      try_ suppress (
        let! num_comments := lift (find_all_comments user_page) in
        assign "num_comments" (VInt num_comments)) >>
      (* parse favorites *)
      match find_user_favorites user_page with
      | Some favorites_section =>
          favorites_list self favorites_section 0 "favorite_anime" "anime" >>
          favorites_list self favorites_section 1 "favorite_manga" "manga" >>
          try_ suppress (
            let! header := lift (index favorites_section 2) in
            assign "favorite_characters" (VDict []) >>
            for_ header (λ elt,
              let! '(id, text) := lift (fav_link elt) in
              let! char := lift (linked (session self) "character" (IdKey id) "title" text) in
              let! '(name, media_id, media_text) := lift (fav_media_link elt) in
              let! anime := lift (linked (session self) name (IdKey media_id) "title" media_text) in
              store_in "favorite_characters" char anime)) >>
          favorites_list self favorites_section 3 "favorite_people" "person"
      | None => ret tt
      end >>
      let stats_tag := find_statistics user_page in
      try_ suppress (
        (* last list updates. *)
        match find_list_updates_table user_page with
        | Some rows =>
            assign "last_list_updates" (VDict []) >>
            for_ rows (λ row,
              let! '(name, id, text) := lift (lu_media_link row) in
              let! media :=
                lift (linked (session self)
                        (if String.eqb name "anime" then "anime" else "manga")
                        (IdKey id) "title" text) in
              let! list_update :=
                match lu_progress row with
                | Some progress_match =>
                    let! '(status, episodes, total_episodes) := lift progress_match in
                    ret (dict_set (VUnicode "total_episodes") (int_or_none total_episodes)
                          (dict_set (VUnicode "episodes") (int_or_none episodes)
                            (dict_set (VUnicode "status") (VUnicode status) [])))
                | None => ret []
                end in
              let! list_update :=
                match lu_time row with
                | Some time_text =>
                    let! time := lift (parse_profile_date time_text) in
                    ret (dict_set (VUnicode "time") time list_update)
                | None => ret list_update
                end in
              store_in "last_list_updates" media (VDict list_update))
        | None => ret tt
        end) >>
      (* anime stats. *)
      stats_block self stats_tag "anime_stats" find_stats_anime >>
      (* manga stats. *)
      stats_block self stats_tag "manga_stats" find_stats_manga >>
      try_ suppress (
        match find_profile_about_user user_page with
        | None => assign "about" (VUnicode "")
        | Some stripped_text =>
            let! about := lift stripped_text in assign "about" (VUnicode about)
        end)
    ) user_info
  end.

(** The start of the four list-page parsers: the sidebar, then the
    second column of the content table; [section] is the try block that
    follows. *)
Definition list_page (self : User) (page : Document)
    (section : SecondCol → P unit) : result attr_dict :=
  match parse_sidebar self page with
  | Raise e => Raise e
  | Ok user_info =>
      match find_second_col page with
      | Raise e => Raise e
      | Ok second_col =>
          returning
            (try_ (suppress_parse_exceptions (session self)) (section second_col))
            user_info
      end
  end.

(** [User.parse_reviews(self, reviews_page)] *)
Definition parse_reviews (self : User) (reviews_page : Document) : result attr_dict :=
  list_page self reviews_page (λ second_col,
    assign "reviews" (VDict []) >>
    let reviews := find_all_borderDark second_col in
    for_ reviews (λ row,
      lift (rv_divs row) >>
      let! date_text := lift (rv_date row) in
      let! date := lift (parse_profile_date date_text) in
      let! '(name, id, text) := lift (rv_media_link row) in
      let! media := lift (linked (session self) name (IdKey id) "title" text) in
      let! '(people_helped, people_total) := lift (rv_helpful row) in
      let! '(media_consumed, media_total) := lift (rv_consumption row) in
      let! rating := lift (rv_rating row) in
      let! review_text := lift (rv_text row) in
      let review_info :=
        dict_set (VUnicode "text") (VUnicode review_text)
          (dict_set (VUnicode "rating") (VInt rating)
            (dict_set (VUnicode "media_total") (int_or_none media_total)
              (dict_set (VUnicode "media_consumed") (VInt media_consumed)
                (dict_set (VUnicode "people_total") (VInt people_total)
                  (dict_set (VUnicode "people_helped") (VInt people_helped)
                    (dict_set (VUnicode "date") date [])))))) in
      store_in "reviews" media (VDict review_info))).

(** [User.parse_recommendations(self, recommendations_page)] *)
Definition parse_recommendations (self : User) (recommendations_page : Document)
    : result attr_dict :=
  list_page self recommendations_page (λ second_col,
    let recommendations := find_all_borderClass second_col in
    match recommendations with
    | [] => ret tt
    | _ :: rows =>
        assign "recommendations" (VDict []) >>
        for_ rows (λ row,
          let! '(name, id, text) := lift (rc_liked_link row) in
          let! liked_media := lift (linked (session self) name (IdKey id) "title" text) in
          let! '(name, id, text) := lift (rc_recommended_link row) in
          let! recommended_media :=
            lift (linked (session self) name (IdKey id) "title" text) in
          let! recommendation_text := lift (rc_text row) in
          let! date_text := lift (rc_date row) in
          let! recommendation_date := lift (parse_profile_date date_text) in
          store_in "recommendations" liked_media
            (VDict (dict_set (VStr "date") recommendation_date
                     (dict_set (VStr "text") (VUnicode recommendation_text)
                       (dict_set (VUnicode name) recommended_media [])))))
    end).

(** [User.parse_clubs(self, clubs_page)] *)
Definition parse_clubs (self : User) (clubs_page : Document) : result attr_dict :=
  list_page self clubs_page (λ second_col,
    assign "clubs" (VList []) >>
    let club_list := find_ol second_col in
    match club_list with
    | Some clubs =>
        for_ clubs (λ row,
          let! '(cid, text) := lift row in
          let! club := lift (linked (session self) "club" (IdKey cid) "name" text) in
          append_to "clubs" club)
    | None => ret tt
    end).

(** [User.parse_friends(self, friends_page)] *)
Definition parse_friends (self : User) (friends_page : Document) : result attr_dict :=
  list_page self friends_page (λ second_col,
    assign "friends" (VDict []) >>
    let friends := find_all_friendHolder second_col in
    for_ friends (λ row,
      let! friend_name := lift (fr_friend_link row) in
      let! friend := lift (entity (session self) "user" (NameKey friend_name)) in
      let! friend_info :=
        match fr_last_active row with
        | Some text =>
            let! last_active := lift (parse_profile_date text) in
            ret (dict_set (VUnicode "last_active") last_active [])
        | None => ret []
        end in
      let! friend_info :=
        match fr_since row with
        | Some text =>
            let! since := lift (parse_profile_date text) in
            ret (dict_set (VUnicode "since") since friend_info)
        | None => ret friend_info
        end in
      store_in "friends" friend (VDict friend_info))).

End Parsers.

(** ** Loaders *)

(** What a method of [User] acts on: the object itself and the requests
    the HTTP session has served so far. *)
Record state := {
  self : User;
  requests : list string
}.

(** [self.session.session.get(url).text], read by
    [utilities.get_clean_dom] *)
Definition http_get (url : string) : ST state Document :=
  λ st, (get (session (self st)) (requests st) url,
         {| self := self st; requests := requests st ++ [url] |}).

(** [self.set(attr_dict)] *)
Definition self_set (attr_dict : gmap string value) : ST state unit :=
  modify (λ st,
    {| self := {| session := session (self st);
                  username := username (self st);
                  attrs := set attr_dict (attrs (self st)) |};
       requests := requests st |}).

(** [parse_result[u'reviews']], whose length and items are read *)
Definition reviews_of (parse_result : gmap string value) : result pydict :=
  match parse_result !! "reviews" with
  | Some (VDict d) => Ok d
  | Some _ => Raise TypeError
  | None => Raise KeyError
  end.

(** [{k: v for d in review_collection for k,v in d.iteritems()}] *)
Definition merge (review_collection : list pydict) : pydict :=
  foldl (λ merged d, foldl (λ merged '(k, v), dict_set k v merged) merged d)
        [] review_collection.

(** [urllib.urlencode({u'p': page})] *)
Definition urlencode_p (page : nat) : string :=
  "p=" ++ NilZero.string_of_uint (Nat.to_uint page).

Section Loaders.
Context `{Utilities}.

Definition profile_url (self : User) : string :=
  "http://myanimelist.net/profile/" ++ urlencode (username self).

Definition reviews_url (self : User) (page : nat) : string :=
  profile_url self ++ "/reviews&" ++ urlencode_p page.

(** A loader with one page: fetch [url], parse, [set]. *)
Definition load_page (url : User → string)
    (parser : User → Document → result (gmap string value)) : ST state unit :=
  λ st,
    (let! page := http_get (url (self st)) in
     let! user_info := lift (parser (self st) page) in
     self_set user_info) st.

(** [User.load(self)] *)
Definition load : ST state unit :=
  load_page profile_url parse.

(** [User.load_recommendations(self)] *)
Definition load_recommendations : ST state unit :=
  load_page (λ self, profile_url self ++ "/recommendations") parse_recommendations.

(** [User.load_clubs(self)] *)
Definition load_clubs : ST state unit :=
  load_page (λ self, profile_url self ++ "/clubs") parse_clubs.

(** [User.load_friends(self)] *)
Definition load_friends : ST state unit :=
  load_page (λ self, profile_url self ++ "/friends") parse_friends.

(** The [while True] loop of [load_reviews], from [page] on with the
    reviews collected so far; [None] when [fuel] iterations do not reach
    the [break]. *)
Fixpoint collect_reviews (fuel page : nat) (review_collection : list pydict)
    (st : state) : option (result (list pydict) * state) :=
  match fuel with
  | O => None
  | S fuel =>
      match (let! user_reviews := http_get (reviews_url (self st) page) in
             let! parse_result := lift (parse_reviews (self st) user_reviews) in
             (* only set attributes once the first time around. *)
             (if (page =? 0)%nat then self_set parse_result else ret tt) >>
             lift (reviews_of parse_result)) st with
      | (Raise e, st') => Some (Raise e, st')
      | (Ok reviews, st') =>
          if (length reviews =? 0)%nat
          then Some (Ok review_collection, st')
          else collect_reviews fuel (S page) (review_collection ++ [reviews]) st'
      end
  end.

(** [User.load_reviews(self)] *)
Definition load_reviews (fuel : nat) (st : state) : option (result unit * state) :=
  match collect_reviews fuel 0 [] st with
  | None => None
  | Some (Raise e, st') => Some (Raise e, st')
  | Some (Ok review_collection, st') =>
      (* merge the review collections into one review dict, and set it. *)
      Some (self_set {["reviews" := VDict (merge review_collection)]} st')
  end.

(** ** Properties *)

Inductive loader :=
| Load
| LoadReviews
| LoadRecommendations
| LoadClubs
| LoadFriends.

(** The first page a loader asks for, and the parser it reads it with. *)
Definition url_of (func_name : loader) (self : User) : string :=
  match func_name with
  | Load => profile_url self
  | LoadReviews => reviews_url self 0
  | LoadRecommendations => profile_url self ++ "/recommendations"
  | LoadClubs => profile_url self ++ "/clubs"
  | LoadFriends => profile_url self ++ "/friends"
  end.

Definition parser_of (func_name : loader) : User → Document → result (gmap string value) :=
  match func_name with
  | Load => parse
  | LoadReviews => parse_reviews
  | LoadRecommendations => parse_recommendations
  | LoadClubs => parse_clubs
  | LoadFriends => parse_friends
  end.

(** [getattr(self, func_name)()] *)
Definition call (func_name : loader) (fuel : nat) (st : state)
    : option (result unit * state) :=
  match func_name with
  | Load => Some (load st)
  | LoadReviews => load_reviews fuel st
  | LoadRecommendations => Some (load_recommendations st)
  | LoadClubs => Some (load_clubs st)
  | LoadFriends => Some (load_friends st)
  end.

(** The [@loadable(...)] decorator of each property. *)
Definition loadable (name : string) : option loader :=
  if bool_decide (name ∈ [ "id"; "picture"; "favorite_anime"; "favorite_manga";
        "favorite_characters"; "favorite_people"; "last_online"; "gender";
        "birthday"; "location"; "website"; "join_date"; "num_comments";
        "num_forum_posts"; "num_reviews"; "num_recommendations";
        "num_blog_posts"; "num_clubs"; "last_list_updates"; "about";
        "anime_stats"; "manga_stats" ])
  then Some Load
  else if String.eqb name "reviews" then Some LoadReviews
  else if String.eqb name "recommendations" then Some LoadRecommendations
  else if String.eqb name "clubs" then Some LoadClubs
  else if String.eqb name "friends" then Some LoadFriends
  else None.

(** Modelled from the spec: the wrapper [loadable] puts around a property
    (base.py is not among the sources).  Reading an attribute that is
    set returns it at once; reading one that is unset ([None]) runs the
    loader of its group, then returns the attribute as it is now, with the
    body of the property ([return self._name]).  The wrapper reads the
    attribute to see whether it is set: for an attribute that no
    statement has assigned ([_id], which [__init__] leaves out) that read
    raises [AttributeError]. *)
Definition read (fuel : nat) (name : string) (st : state)
    : option (result value * state) :=
  match loadable name with
  | None => Some (Raise AttributeError, st)
  | Some func_name =>
      match getattr (attrs (self st)) name with
      | Raise e => Some (Raise e, st)
      | Ok VNone =>
          match call func_name fuel st with
          | None => None
          | Some (Raise e, st') => Some (Raise e, st')
          | Some (Ok _, st') => Some (getattr (attrs (self st')) name, st')
          end
      | Ok cached => Some (Ok cached, st)
      end
  end.

End Loaders.

(** ** The loaders over any [Base.set] *)

(** [Base.set] is not among the sources; here the loaders are given with
    the function they call for it, [update], left open, to see what they
    ask of it. *)
Section Loaders_over_set.
Context `{Utilities}.
Variable update : gmap string value → gmap string value → gmap string value.






End Loaders_over_set.

(** ** Vocabulary of the statements *)

(** No two entries of a dict have equal keys. *)
Fixpoint unique_keys (d : pydict) : Prop :=
  match d with
  | [] => True
  | (k, _) :: d' => dict_get k d' = None ∧ unique_keys d'
  end.

(** The entry of [k] on the last page that has one. *)
Definition last_entry (k : value) (review_collection : list pydict) : option value :=
  foldl (λ found d, match dict_get k d with Some v => Some v | None => found end)
        None review_collection.

(** [c] keeps the invariant [I] of the object, however it ends. *)
Definition preserves {S A} (I : S → Prop) (c : ST S A) : Prop :=
  ∀ s, I s → I (c s).2.

(** [c] returns, whatever the object. *)
Definition succeeds {S A} (c : ST S A) : Prop :=
  ∀ s, ∃ a, (c s).1 = Ok a.

(** Statements on [user_info] that leave the entry of [k] as it is. *)
Definition keeps {A} (k : string) (c : P A) : Prop :=
  ∀ x, preserves (λ user_info, user_info !! k = x) c.

(** The keys [parse_sidebar] may set. *)
Definition sidebar_keys : list string :=
  [ "picture"; "id"; "last_online"; "gender"; "birthday"; "location";
    "join_date"; "num_forum_posts"; "num_reviews"; "num_recommendations";
    "num_blog_posts"; "num_clubs"; "website" ].

(** The keys a page parser may set after the sidebar. *)
Definition page_keys : list string :=
  [ "num_comments"; "favorite_anime"; "favorite_manga"; "favorite_characters";
    "favorite_people"; "last_list_updates"; "anime_stats"; "manga_stats";
    "about"; "reviews"; "recommendations"; "clubs"; "friends" ].

(** What the sidebar gives for a field of the first status list: the
    parsed text next to its label, [None] when the label is absent or
    the text cannot be read or parsed. *)
Definition field_value (general_elt : StatusElt) (finder : string)
    (parser : string → result value) : value :=
  match find_span finder general_elt with
  | Some (Ok text) => match parser text with Ok v => v | Raise _ => VNone end
  | _ => VNone
  end.

(** The gender the sidebar gives: the text next to the Gender label, or
    'Not specified' when there is none or it is empty. *)
Definition sidebar_gender (general_elt : StatusElt) : value :=
  match find_span "Gender" general_elt with
  | Some (Ok text) => if String.eqb text "" then VStr "Not specified" else VUnicode text
  | _ => VStr "Not specified"
  end.

(** The reviews entry, when it is a dict, has no two equal keys. *)
Definition reviews_unique (user_info : gmap string value) : Prop :=
  ∀ d, user_info !! "reviews" = Some (VDict d) → unique_keys d.

(** The same user in a session that suppresses parse exceptions. *)
Definition permissive (self : User) : User :=
  {| session := {| suppress_parse_exceptions := true;
                   get := get (session self);
                   entity := entity (session self) |};
     username := username self;
     attrs := attrs self |}.

(** Whenever [c] returns, [c'] returns the same, with the same object. *)
Definition agree {S A} (c c' : ST S A) : Prop :=
  ∀ s a s', c s = (Ok a, s') → c' s = (Ok a, s').

Section Vocabulary.
Context `{Utilities}.

(** The site serves [pages] as the reviews pages [page], [page + 1], ...
    of the user, each with its parse result and its reviews, none empty,
    and then [last], a page without reviews. *)
Fixpoint serves_reviews (self : User) (served : list string) (page : nat)
    (pages : list (Document * gmap string value * pydict))
    (last : Document * gmap string value) : Prop :=
  match pages with
  | [] =>
      get (session self) served (reviews_url self page) = Ok last.1 ∧
      parse_reviews self last.1 = Ok last.2 ∧
      reviews_of last.2 = Ok []
  | (reviews_page, parse_result, reviews) :: pages =>
      get (session self) served (reviews_url self page) = Ok reviews_page ∧
      parse_reviews self reviews_page = Ok parse_result ∧
      reviews_of parse_result = Ok reviews ∧
      reviews ≠ [] ∧
      serves_reviews self (served ++ [reviews_url self page]) (S page) pages last
  end.

(** The mapping [load_reviews] passes to its first [set]. *)
Definition first_result (pages : list (Document * gmap string value * pydict))
    (last : Document * gmap string value) : gmap string value :=
  match pages with
  | [] => last.2
  | (_, parse_result, _) :: _ => parse_result
  end.

(** Reading an attribute of the group of [func] that is set returns it
    with no request and no change. *)
Definition cached (func : loader) (st : state) : Prop :=
  ∀ name v fuel,
    loadable name = Some func → attrs (self st) !! name = Some v → v ≠ VNone →
    read fuel name st = Some (Ok v, st).

End Vocabulary.

(** ** A test bench *)

(** A stand-in for the [utilities] module: dates are written as a number
    of seconds, names are sent as they are. *)
Definition test_utilities : Utilities := {|
  parse_profile_date text :=
    match int text with
    | Ok seconds => Ok (VDatetime seconds)
    | Raise e => Raise e
    end;
  urlencode name := name
|}.

(** A session factory: any class but [user] takes any key; a user needs
    a non-empty name, as [User.__init__] demands. *)
Definition test_entity (name : string) (key : natural_key) : result value :=
  match key with
  | NameKey "" => Raise (InvalidUserError (VUnicode ""))
  | _ => Ok (VObj name key ∅)
  end.

(** The sidebar of satou's pages: no picture, no birthday. *)
Definition satou_sidebar : UserProfile := {|
  find_img := None;
  find_blog_feed_id := Ok 4129;
  find_all_user_status :=
    [ [ ("Last Online", Ok "1400000000"); ("Gender", Ok "Male");
        ("Location", Ok "Tokyo"); ("Joined", Ok "1200000000") ];
      [];
      [ ("Forum Posts", Ok "1,234"); ("Reviews", Ok "2");
        ("Recommendations", Ok "0"); ("Blog Posts", Ok "7");
        ("Clubs", Ok "3") ] ];
  find_also_available := None
|}.

(** A page with satou's sidebar and nothing else. *)
Definition satou_page (second_col : result SecondCol) : Document := {|
  find_error404 := false;
  find_user_profile := Some satou_sidebar;
  find_all_comments := Ok 12;
  find_user_favorites := None;
  find_statistics := None;
  find_list_updates_table := None;
  find_profile_about_user := None;
  find_second_col := second_col
|}.

(** satou's profile page, without the statistics section. *)
Definition satou_profile : Document :=
  satou_page (Raise AttributeError).

Definition test_review (name : string) (id : Z) (rating : result Z) : ReviewRow := {|
  rv_divs := Ok tt;
  rv_date := Ok "1300000000";
  rv_media_link := Ok (name, id, "a title");
  rv_helpful := Ok (3, 5);
  rv_consumption := Ok (12, None);
  rv_rating := rating;
  rv_text := Ok "a review"
|}.

Definition reviews_page (rows : list ReviewRow) : Document :=
  satou_page (Ok {| find_all_borderDark := rows;
                    find_all_borderClass := [];
                    find_ol := None;
                    find_all_friendHolder := [] |}).

(** A site that serves [profile] for any request that is not for a
    reviews page, and [pages] as the reviews pages 0, 1, ..., followed by
    empty ones. *)
Definition test_site (profile : Document) (pages : list Document)
    (served : list string) (url : string) : result Document :=
  match list_find (λ p, String.eqb url
                     ("http://myanimelist.net/profile/satou/reviews&" ++ urlencode_p p))
                  (seq 0 (length pages)) with
  | Some (p, _) => not_none (pages !! p)
  | None =>
      if String.prefix "http://myanimelist.net/profile/satou/reviews&" url
      then Ok (reviews_page [])
      else Ok profile
  end.

Definition test_session (suppress : bool) (profile : Document) (pages : list Document)
    : Session := {|
  suppress_parse_exceptions := suppress;
  get := test_site profile pages;
  entity := test_entity
|}.

(** The state a new [User] is in, before any request. *)
Definition fresh (session : Session) (username : string) : result state :=
  match __init__ session (VUnicode username) with
  | Ok user => Ok {| self := user; requests := [] |}
  | Raise e => Raise e
  end.

(** satou, new, in [session]. *)
Definition satou (a_session : Session) : state :=
  {| self := {| session := a_session;
                username := "satou";
                attrs := foldl (λ self k, <[k := VNone]> self) ∅ init_attributes |};
     requests := [] |}.

(** Two reviews pages, with a review of anime 1 on both. *)
Definition two_review_pages : list Document :=
  [ reviews_page [test_review "anime" 1 (Ok 9)];
    reviews_page [test_review "manga" 2 (Ok 7); test_review "anime" 1 (Ok 3)] ].

(** Two reviews pages, the second with a rating that cannot be read. *)
Definition broken_review_pages : list Document :=
  [ reviews_page [test_review "anime" 1 (Ok 9)];
    reviews_page [test_review "manga" 2 (Raise ValueError)] ].

(** A page said not to exist. *)
Definition error404_page : Document := {|
  find_error404 := true;
  find_user_profile := None;
  find_all_comments := Raise AttributeError;
  find_user_favorites := None;
  find_statistics := None;
  find_list_updates_table := None;
  find_profile_about_user := None;
  find_second_col := Raise AttributeError
|}.

(** A reviews page with what [parse_reviews] makes of it. *)
Definition parsed (self : User) (page : Document)
    : Document * gmap string value * pydict :=
  match parse_reviews (H:=test_utilities) self page with
  | Ok parse_result =>
      (page, parse_result,
       match reviews_of parse_result with Ok d => d | Raise _ => [] end)
  | Raise _ => (page, ∅, [])
  end.

(** The rating of the review of [media] in a reviews dict. *)
Definition rating (media : value) (reviews : value) : option value :=
  match reviews with
  | VDict d =>
      match dict_get media d with
      | Some (VDict review_info) => dict_get (VUnicode "rating") review_info
      | _ => None
      end
  | _ => None
  end.

Definition anime_1 : value := VObj "anime" (IdKey 1) ∅.


(** satou in a permissive session with two reviews pages. *)
Definition permissive_satou : state :=
  satou (test_session true satou_profile two_review_pages).

(** satou in a strict session whose second reviews page is broken. *)
Definition strict_satou : state :=
  satou (test_session false satou_profile broken_review_pages).


(** satou in a strict session whose first reviews page has a rating that
    cannot be read. *)
Definition unrated_satou : state :=
  satou (test_session false satou_profile
           [reviews_page [test_review "anime" 1 (Raise ValueError)]]).

(** satou in a session whose site says the user does not exist. *)
Definition missing_satou : state :=
  satou (test_session true error404_page [error404_page]).

(** ** Looking up a username *)

(** [old in text] *)
Fixpoint contains (old text : string) : bool :=
  match text with
  | EmptyString => String.prefix old text
  | String _ rest => String.prefix old text || contains old rest
  end.

(** [text.replace(old, '')] for a non-empty [old], read from the left:
    an occurrence of [old] is dropped with the [skip] characters still
    to pass, any other character is kept. *)
Fixpoint remove_all (old : string) (skip : nat) (text : string) : string :=
  match text with
  | EmptyString => EmptyString
  | String a rest =>
      match skip with
      | S skip => remove_all old skip rest
      | O =>
          if String.prefix old text
          then remove_all old (String.length old - 1) rest
          else String a (remove_all old 0 rest)
      end
  end.

(** [User.find_username_from_user_id(session, user_id)]; [find_h1 url] is
    the text of the [h1] of the page the HTTP session gets for [url],
    [None] when the page has none. *)
Definition find_username_from_user_id (find_h1 : string → result (option string))
    (user_id : Z) : result string :=
  match find_h1 ("http://myanimelist.net/comments.php?" ++
                 "id=" ++ NilZero.string_of_int (Z.to_int user_id)) with
  | Raise e => Raise e
  | Ok username_elt =>
      match not_none username_elt with
      | Raise e => Raise e
      | Ok text =>
          if negb (contains "'s Comments" text)
          then Raise (InvalidUserError (VInt user_id))
          else Ok (remove_all "'s Comments" 0 text)
      end
  end.

(** ** Vocabulary of the further statements *)

(** The result is a value, not an exception. *)
Definition returns {A} (r : result A) : bool :=
  match r with Ok _ => true | Raise _ => false end.

(** What the sidebar gives for a count of the third status list: the
    number next to its label, nothing when the label is absent or its
    text cannot be read as an integer. *)
Definition count_value (stats_elt : StatusElt) (finder : string) : option Z :=
  match find_span finder stats_elt with
  | Some (Ok text) =>
      match int (remove_char "," text) with
      | Ok count => Some count
      | Raise _ => None
      end
  | _ => None
  end.

(** The entry of [k] is a dict. *)
Definition holds_dict (k : string) (user_info : gmap string value) : Prop :=
  ∃ d, user_info !! k = Some (VDict d).

(** The entry of [k] is a list. *)
Definition holds_list (k : string) (user_info : gmap string value) : Prop :=
  ∃ l, user_info !! k = Some (VList l).

(** The value of an expression that reads no object. *)
Definition evaluate {A} (c : ST unit A) : result A := (c tt).1.

(** The results up to the first exception. *)
Fixpoint before_first_raise {A} (results : list (result A)) : list A :=
  match results with
  | Ok a :: results => a :: before_first_raise results
  | _ => []
  end.

Section Review_entry.
Context `{Utilities}.

(** The media and the [review_info] that the loop of [parse_reviews]
    makes of a row: its statements before the store in
    [user_info[u'reviews']]. *)
Definition review_entry (self : User) (row : ReviewRow) : result (value * value) :=
  evaluate (
    lift (rv_divs row) >>
    let! date_text := lift (rv_date row) in
    let! date := lift (parse_profile_date date_text) in
    let! '(name, id, text) := lift (rv_media_link row) in
    let! media := lift (linked (session self) name (IdKey id) "title" text) in
    let! '(people_helped, people_total) := lift (rv_helpful row) in
    let! '(media_consumed, media_total) := lift (rv_consumption row) in
    let! rating := lift (rv_rating row) in
    let! review_text := lift (rv_text row) in
    let review_info :=
      dict_set (VUnicode "text") (VUnicode review_text)
        (dict_set (VUnicode "rating") (VInt rating)
          (dict_set (VUnicode "media_total") (int_or_none media_total)
            (dict_set (VUnicode "media_consumed") (VInt media_consumed)
              (dict_set (VUnicode "people_total") (VInt people_total)
                (dict_set (VUnicode "people_helped") (VInt people_helped)
                  (dict_set (VUnicode "date") date [])))))) in
    ret (media, VDict review_info)).

End Review_entry.

(** ** Malformed fields *)

(** [c] raises, whatever the object. *)
Definition fails {S A} (c : ST S A) : Prop :=
  ∀ s, ∃ e, (c s).1 = Raise e.

(** A list of rows that is missing, or has a row whose entry cannot be
    made. *)
Inductive malformed_rows {Row A} (entry : Row → result A) (rows : option (list Row))
    : Prop :=
| rows_missing :
    rows = None → malformed_rows entry rows
| row_malformed l row e :
    rows = Some l → row ∈ l → entry row = Raise e → malformed_rows entry rows.

(** A statistics block that is missing, or lacks one of its numbers or
    one of its two lists, or has a metric that cannot be read. *)
Inductive malformed_stats (stats_header : option StatsHeader) : Prop :=
| stats_header_missing :
    stats_header = None → malformed_stats stats_header
| stats_days header e :
    stats_header = Some header → find_days header = Raise e →
    malformed_stats stats_header
| stats_mean_score header e :
    stats_header = Some header → find_mean_score header = Raise e →
    malformed_stats stats_header
| stats_table_missing header i :
    stats_header = Some header → (i < 2)%nat → find_all_ul header !! i = None →
    malformed_stats stats_header
| stats_metric_link header table metric e :
    stats_header = Some header → find_all_ul header !! 0%nat = Some table →
    metric ∈ table → metric_link metric = Raise e →
    malformed_stats stats_header
| stats_metric_parts header table metric e :
    stats_header = Some header → find_all_ul header !! 1%nat = Some table →
    metric ∈ table → metric_parts metric = Raise e →
    malformed_stats stats_header.

Section Malformed.
Context `{Utilities}.

(** The entity that a favorites list of [parse] makes of an [li]: the
    statements of its loop before the [append]. *)
Definition favorite_entry (self : User) (name : string) (elt : FavoriteItem)
    : result value :=
  evaluate (
    let! '(id, text) := lift (fav_link elt) in
    lift (linked (session self) name (IdKey id) "title" text)).

(** The character and the media that the favorite characters of [parse]
    make of an [li]. *)
Definition character_entry (self : User) (elt : FavoriteItem) : result (value * value) :=
  evaluate (
    let! '(id, text) := lift (fav_link elt) in
    let! char := lift (linked (session self) "character" (IdKey id) "title" text) in
    let! '(name, media_id, media_text) := lift (fav_media_link elt) in
    let! anime := lift (linked (session self) name (IdKey media_id) "title" media_text) in
    ret (char, anime)).

(** The media and the [list_update] that the last list updates of [parse]
    make of a row. *)
Definition list_update_entry (self : User) (row : ListUpdateRow)
    : result (value * value) :=
  evaluate (
    let! '(name, id, text) := lift (lu_media_link row) in
    let! media :=
      lift (linked (session self)
              (if String.eqb name "anime" then "anime" else "manga")
              (IdKey id) "title" text) in
    let! list_update :=
      match lu_progress row with
      | Some progress_match =>
          let! '(status, episodes, total_episodes) := lift progress_match in
          ret (dict_set (VUnicode "total_episodes") (int_or_none total_episodes)
                (dict_set (VUnicode "episodes") (int_or_none episodes)
                  (dict_set (VUnicode "status") (VUnicode status) [])))
      | None => ret []
      end in
    let! list_update :=
      match lu_time row with
      | Some time_text =>
          let! time := lift (parse_profile_date time_text) in
          ret (dict_set (VUnicode "time") time list_update)
      | None => ret list_update
      end in
    ret (media, VDict list_update)).

(** The liked media and the recommendation that [parse_recommendations]
    makes of a row. *)
Definition recommendation_entry (self : User) (row : RecommendationRow)
    : result (value * value) :=
  evaluate (
    let! '(name, id, text) := lift (rc_liked_link row) in
    let! liked_media := lift (linked (session self) name (IdKey id) "title" text) in
    let! '(name, id, text) := lift (rc_recommended_link row) in
    let! recommended_media :=
      lift (linked (session self) name (IdKey id) "title" text) in
    let! recommendation_text := lift (rc_text row) in
    let! date_text := lift (rc_date row) in
    let! recommendation_date := lift (parse_profile_date date_text) in
    ret (liked_media,
         VDict (dict_set (VStr "date") recommendation_date
                 (dict_set (VStr "text") (VUnicode recommendation_text)
                   (dict_set (VUnicode name) recommended_media []))))).

(** The club that [parse_clubs] makes of a row. *)
Definition club_entry (self : User) (row : result (Z * string)) : result value :=
  evaluate (
    let! '(cid, text) := lift row in
    lift (linked (session self) "club" (IdKey cid) "name" text)).

(** The friend and the [friend_info] that [parse_friends] makes of a
    row. *)
Definition friend_entry (self : User) (row : FriendRow) : result (value * value) :=
  evaluate (
    let! friend_name := lift (fr_friend_link row) in
    let! friend := lift (entity (session self) "user" (NameKey friend_name)) in
    let! friend_info :=
      match fr_last_active row with
      | Some text =>
          let! last_active := lift (parse_profile_date text) in
          ret (dict_set (VUnicode "last_active") last_active [])
      | None => ret []
      end in
    let! friend_info :=
      match fr_since row with
      | Some text =>
          let! since := lift (parse_profile_date text) in
          ret (dict_set (VUnicode "since") since friend_info)
      | None => ret friend_info
      end in
    ret (friend, VDict friend_info)).

(** What a field of the first status list gives: the statements of its
    [try] block before the assignment. *)
Definition general_entry (parser : string → result value)
    (next_sibling_text : result string) : result value :=
  evaluate (
    let! text := lift next_sibling_text in
    lift (parser text)).

(** A field of the sidebar is malformed: an expression of one of the [try]
    blocks of [parse_sidebar] raises.  That is the picture, the id, a
    field of the first status list whose label is there, or a count of the
    third status list. *)
Inductive malformed_sidebar (panel : UserProfile) : Prop :=
| malformed_picture e :
    find_img panel = Some (Raise e) → malformed_sidebar panel
| malformed_id e :
    find_blog_feed_id panel = Raise e → malformed_sidebar panel
| malformed_general_field general_elt name finder parser next_sibling_text e :
    find_all_user_status panel !! 0%nat = Some general_elt →
    (name, finder, parser) ∈
      [ ("last_online", "Last Online", parse_profile_date);
        ("gender", "Gender", λ x, Ok (VUnicode x));
        ("birthday", "Birthday", parse_profile_date);
        ("location", "Location", λ x, Ok (VUnicode x));
        ("join_date", "Joined", parse_profile_date) ] →
    find_span finder general_elt = Some next_sibling_text →
    general_entry parser next_sibling_text = Raise e →
    malformed_sidebar panel
| malformed_count stats_elt name finder :
    find_all_user_status panel !! 2%nat = Some stats_elt →
    (name, finder) ∈
      [ ("num_forum_posts", "Forum Posts"); ("num_reviews", "Reviews");
        ("num_recommendations", "Recommendations");
        ("num_blog_posts", "Blog Posts"); ("num_clubs", "Clubs") ] →
    count_value stats_elt finder = None →
    malformed_sidebar panel.

(** A field of the first page that the loader [func_name] fetches is
    malformed: an expression of one of the [try] blocks of its parser
    raises on this page. *)
Inductive malformed (self : User) (page : Document) : loader → Prop :=
| malformed_in_sidebar func_name panel :
    find_user_profile page = Some panel → malformed_sidebar panel →
    malformed self page func_name
| malformed_num_comments e :
    find_all_comments page = Raise e → malformed self page Load
| malformed_favorites favorites_section position field_name name :
    find_user_favorites page = Some favorites_section →
    (position, field_name, name) ∈
      [ (0%nat, "favorite_anime", "anime"); (1%nat, "favorite_manga", "manga");
        (3%nat, "favorite_people", "person") ] →
    malformed_rows (favorite_entry self name) (favorites_section !! position) →
    malformed self page Load
| malformed_favorite_characters favorites_section :
    find_user_favorites page = Some favorites_section →
    malformed_rows (character_entry self) (favorites_section !! 2%nat) →
    malformed self page Load
| malformed_list_update rows row e :
    find_list_updates_table page = Some rows → row ∈ rows →
    list_update_entry self row = Raise e →
    malformed self page Load
| malformed_statistics_missing :
    find_statistics page = None → malformed self page Load
| malformed_anime_stats stats_tag :
    find_statistics page = Some stats_tag →
    malformed_stats (find_stats_anime stats_tag) →
    malformed self page Load
| malformed_manga_stats stats_tag :
    find_statistics page = Some stats_tag →
    malformed_stats (find_stats_manga stats_tag) →
    malformed self page Load
| malformed_about e :
    find_profile_about_user page = Some (Raise e) → malformed self page Load
| malformed_review second_col row e :
    find_second_col page = Ok second_col →
    row ∈ find_all_borderDark second_col →
    review_entry self row = Raise e →
    malformed self page LoadReviews
| malformed_recommendation second_col first rows row e :
    find_second_col page = Ok second_col →
    find_all_borderClass second_col = first :: rows →
    row ∈ rows →
    recommendation_entry self row = Raise e →
    malformed self page LoadRecommendations
| malformed_club second_col clubs row e :
    find_second_col page = Ok second_col →
    find_ol second_col = Some clubs →
    row ∈ clubs →
    club_entry self row = Raise e →
    malformed self page LoadClubs
| malformed_friend second_col row e :
    find_second_col page = Ok second_col →
    row ∈ find_all_friendHolder second_col →
    friend_entry self row = Raise e →
    malformed self page LoadFriends.

End Malformed.

(** Every character of the string is a decimal digit. *)
Fixpoint all_digits (s : string) : bool :=
  match s with
  | EmptyString => true
  | String a rest =>
      let n := nat_of_ascii a in
      (48 <=? n)%nat && (n <=? 57)%nat && all_digits rest
  end.

(** The string has no apostrophe. *)
Fixpoint no_apostrophe (s : string) : bool :=
  match s with
  | EmptyString => true
  | String a rest => negb (Ascii.eqb a "'") && no_apostrophe rest
  end.

(** ** More pages for the test bench *)

(** A page of satou with [sidebar] for its sidebar and [statistics] for
    its statistics section. *)
Definition page_with (sidebar : option UserProfile) (statistics : option Statistics)
    (second_col : result SecondCol) : Document := {|
  find_error404 := false;
  find_user_profile := sidebar;
  find_all_comments := Ok 12;
  find_user_favorites := None;
  find_statistics := statistics;
  find_list_updates_table := None;
  find_profile_about_user := None;
  find_second_col := second_col
|}.

(** satou's sidebar with [status] for its status lists and [website] for
    its website link. *)
Definition sidebar_with (status : list StatusElt) (website : option (result string))
    : UserProfile := {|
  find_img := find_img satou_sidebar;
  find_blog_feed_id := find_blog_feed_id satou_sidebar;
  find_all_user_status := status;
  find_also_available := website
|}.

(** A second column with [recommendations] for its recommendation divs
    and [friends] for its friend holders. *)
Definition column_with (recommendations : list RecommendationRow)
    (friends : list FriendRow) : SecondCol := {|
  find_all_borderDark := [];
  find_all_borderClass := recommendations;
  find_ol := None;
  find_all_friendHolder := friends
|}.

(** A recommendation of a sequel. *)
Definition test_recommendation : RecommendationRow := {|
  rc_liked_link := Ok ("anime", 64, "Rozen Maiden");
  rc_recommended_link := Ok ("anime", 65, "Rozen Maiden: Traumend");
  rc_text := Ok "the sequel";
  rc_date := Ok "1300000000"
|}.

(** A friend whose link has no text. *)
Definition nameless_friend : FriendRow := {|
  fr_friend_link := Ok "";
  fr_last_active := None;
  fr_since := None
|}.

(** satou in a session whose site gives the same page of one review for
    every request. *)
Definition looping_satou : state :=
  satou {| suppress_parse_exceptions := true;
           get := λ _ _, Ok (reviews_page [test_review "anime" 1 (Ok 9)]);
           entity := test_entity |}.

(** * Properties *)

(** ** Keys of dicts *)

Lemma natural_key_eqb_sym a b : natural_key_eqb a b = natural_key_eqb b a.
Proof.
  destruct a, b; simpl; try done.
  - apply Z.eqb_sym.
  - apply String.eqb_sym.
Qed.

Lemma natural_key_eqb_trans a b c :
  natural_key_eqb a b = true → natural_key_eqb b c = true → natural_key_eqb a c = true.
Proof.
  destruct a, b, c; simpl; try done.
  - rewrite !Z.eqb_eq. congruence.
  - rewrite !String.eqb_eq. congruence.
Qed.

Lemma key_eqb_sym a b : key_eqb a b = key_eqb b a.
Proof.
  destruct a, b; simpl; try done;
    try apply Z.eqb_sym; try apply String.eqb_sym.
  by rewrite String.eqb_sym, natural_key_eqb_sym.
Qed.

Lemma key_eqb_trans a b c :
  key_eqb a b = true → key_eqb b c = true → key_eqb a c = true.
Proof.
  destruct a, b, c; simpl; try done;
    rewrite ?Z.eqb_eq, ?String.eqb_eq; try congruence.
  rewrite !andb_true_iff, !String.eqb_eq.
  intros [-> ?] [-> ?]. eauto using natural_key_eqb_trans.
Qed.

(** Two equal keys find the same entry. *)
Lemma dict_get_eqb k k' d : key_eqb k k' = true → dict_get k d = dict_get k' d.
Proof.
  intros Hk. induction d as [|[k0 v0] d IH]; simpl; [done|].
  destruct (key_eqb k k0) eqn:E, (key_eqb k' k0) eqn:E'; try done.
  - rewrite key_eqb_sym in Hk.
    by rewrite (key_eqb_trans _ _ _ Hk E) in E'.
  - by rewrite (key_eqb_trans _ _ _ Hk E') in E.
Qed.

(** Reading a dict after [d[k'] = v]. *)
Lemma dict_get_set k k' v d :
  dict_get k (dict_set k' v d) =
    if key_eqb k k' then Some v else dict_get k d.
Proof.
  induction d as [|[k0 v0] d IH]; simpl; [done|].
  destruct (key_eqb k' k0) eqn:E0; simpl.
  - destruct (key_eqb k k0) eqn:E1, (key_eqb k k') eqn:E2; try done.
    + rewrite key_eqb_sym in E0.
      by rewrite (key_eqb_trans _ _ _ E1 E0) in E2.
    + by rewrite (key_eqb_trans _ _ _ E2 E0) in E1.
  - destruct (key_eqb k k0) eqn:E1; [|done].
    destruct (key_eqb k k') eqn:E2; [|done].
    rewrite key_eqb_sym in E2.
    by rewrite (key_eqb_trans _ _ _ E2 E1) in E0.
Qed.

Lemma unique_keys_set k v d :
  key_eqb k k = true → unique_keys d → unique_keys (dict_set k v d).
Proof.
  intros Hk. induction d as [|[k0 v0] d IH]; simpl.
  - done.
  - intros [Hk0 Hd]. destruct (key_eqb k k0) eqn:E; simpl.
    + done.
    + split; [|by apply IH].
      rewrite dict_get_set. by rewrite key_eqb_sym, E.
Qed.

(** Copying the items of [d] into [merged], as the comprehension of
    [load_reviews] does for one page. *)
Lemma dict_get_update k d : ∀ merged,
  unique_keys d →
  dict_get k (foldl (λ merged '(k, v), dict_set k v merged) merged d) =
    match dict_get k d with
    | Some v => Some v
    | None => dict_get k merged
    end.
Proof.
  induction d as [|[k0 v0] d IH]; intros merged; simpl; [done|].
  intros [Hk0 Hd]. rewrite IH by done.
  destruct (key_eqb k k0) eqn:E.
  - rewrite (dict_get_eqb _ _ _ E), Hk0, dict_get_set. by rewrite E.
  - destruct (dict_get k d); [done|]. rewrite dict_get_set. by rewrite E.
Qed.

Lemma dict_get_merge_from k ds : ∀ merged found,
  Forall unique_keys ds →
  dict_get k merged = found →
  dict_get k
    (foldl (λ merged d, foldl (λ merged '(k, v), dict_set k v merged) merged d)
           merged ds) =
  foldl (λ found d, match dict_get k d with Some v => Some v | None => found end)
        found ds.
Proof.
  induction ds as [|d ds IH]; intros merged found Hds Hfound; simpl; [done|].
  inversion Hds; subst. apply IH; [done|].
  by rewrite dict_get_update.
Qed.

Lemma last_entry_snoc k ds d :
  last_entry k (ds ++ [d]) =
    match dict_get k d with Some v => Some v | None => last_entry k ds end.
Proof. unfold last_entry. by rewrite foldl_app. Qed.

Lemma last_entry_Some k v ds :
  last_entry k ds = Some v → ∃ d, d ∈ ds ∧ dict_get k d = Some v.
Proof.
  induction ds as [|d ds IH] using rev_ind; [done|].
  rewrite last_entry_snoc. destruct (dict_get k d) eqn:E.
  - intros [= ->]. exists d. split; [|done]. apply elem_of_app. right. by apply list_elem_of_singleton.
  - intros Hds. apply IH in Hds as (d' & ? & ?).
    exists d'. split; [|done]. apply elem_of_app. by left.
Qed.

Lemma last_entry_is_Some k ds :
  is_Some (last_entry k ds) ↔ ∃ d, d ∈ ds ∧ is_Some (dict_get k d).
Proof.
  induction ds as [|d ds IH] using rev_ind.
  - split; [by intros [? ?]|]. intros (d & Hd & _). by apply elem_of_nil in Hd.
  - rewrite last_entry_snoc. split.
    + destruct (dict_get k d) eqn:E.
      * intros _. exists d. split; [|by rewrite E]. apply elem_of_app. right. by apply list_elem_of_singleton.
      * intros Hds. destruct (proj1 IH Hds) as (d' & ? & ?).
        exists d'. split; [|done]. apply elem_of_app. by left.
    + intros (d' & Hd' & Hsome). apply elem_of_app in Hd' as [Hd'|Hd'].
      * destruct (dict_get k d); [done|]. apply (proj2 IH). eauto.
      * apply list_elem_of_singleton in Hd' as ->. by destruct (dict_get k d).
Qed.

(** ** Statements in [ST] *)

Section ST_facts.
Context {S : Type}.
Implicit Types (s : S) (I : S → Prop).

Lemma bind_Ok {A B} (c : ST S A) (f : A → ST S B) s b s' :
  bind c f s = (Ok b, s') → ∃ a s1, c s = (Ok a, s1) ∧ f a s1 = (Ok b, s').
Proof. unfold bind. destruct (c s) as [[a|e] s1]; [eauto|done]. Qed.

(** Without suppression a handler raises what its body raised. *)
Lemma try_strict (body : ST S unit) s : try_ false body s = body s.
Proof. unfold try_. by destruct (body s) as [[[]|e] s1]. Qed.

Lemma returning_Ok (c : ST S unit) s s' :
  returning c s = Ok s' ↔ c s = (Ok tt, s').
Proof.
  unfold returning. destruct (c s) as [[[]|e] s1]; split; congruence.
Qed.

Lemma preserves_ret {A} I (a : A) : preserves I (ret a).
Proof. by intros s. Qed.

Lemma preserves_raise {A} I e : preserves I (raise (A:=A) e).
Proof. by intros s. Qed.

Lemma preserves_lift {A} I (r : result A) : preserves I (lift r).
Proof. by intros s. Qed.

Lemma preserves_bind {A B} I (c : ST S A) (f : A → ST S B) :
  preserves I c → (∀ a, preserves I (f a)) → preserves I (bind c f).
Proof.
  intros Hc Hf s Hs. unfold bind. specialize (Hc s Hs).
  destruct (c s) as [[a|e] s1]; simpl in *; [by apply Hf|done].
Qed.

Lemma preserves_try I sup (body : ST S unit) :
  preserves I body → preserves I (try_ sup body).
Proof.
  intros Hc s Hs. unfold try_. specialize (Hc s Hs).
  destruct (body s) as [[[]|e] s1]; [done|]. by destruct sup.
Qed.

Lemma preserves_for {X} I (xs : list X) (body : X → ST S unit) :
  Forall (λ x, preserves I (body x)) xs → preserves I (for_ xs body).
Proof.
  induction 1; simpl; [apply preserves_ret|].
  apply preserves_bind; auto.
Qed.

Lemma succeeds_ret {A} (a : A) : succeeds (S:=S) (ret a).
Proof. intros s. by exists a. Qed.

Lemma succeeds_try (body : ST S unit) : succeeds (try_ true body).
Proof. intros s. exists tt. unfold try_. by destruct (body s) as [[[]|e] s1]. Qed.

Lemma succeeds_bind {A B} (c : ST S A) (f : A → ST S B) :
  succeeds c → (∀ a, succeeds (f a)) → succeeds (bind c f).
Proof.
  intros Hc Hf s. unfold bind. destruct (Hc s) as [a Ha].
  destruct (c s) as [[a'|e] s1]; simpl in *; [apply Hf|done].
Qed.

Lemma succeeds_for {X} (xs : list X) (body : X → ST S unit) :
  (∀ x, succeeds (body x)) → succeeds (for_ xs body).
Proof.
  intros Hbody. induction xs; simpl; [apply succeeds_ret|].
  by apply succeeds_bind.
Qed.

Lemma succeeds_returning (c : ST S unit) s :
  succeeds c → ∃ s', returning c s = Ok s'.
Proof.
  intros Hc. unfold returning. destruct (Hc s) as [a Ha].
  destruct (c s) as [[[]|e] s1]; simpl in *; [eauto|done].
Qed.

End ST_facts.

Lemma keeps_assign k k' v : k' ≠ k → keeps k (assign k' v).
Proof. intros Hk x user_info <-. simpl. by rewrite lookup_insert_ne. Qed.

Lemma keeps_append_to k k' v : k' ≠ k → keeps k (append_to k' v).
Proof.
  intros Hk x user_info <-. unfold append_to.
  destruct (user_info !! k') as [[]|]; simpl; try done.
  by rewrite lookup_insert_ne.
Qed.

Lemma keeps_store_in k k' key v : k' ≠ k → keeps k (store_in k' key v).
Proof.
  intros Hk x user_info <-. unfold store_in.
  destruct (user_info !! k') as [[]|]; simpl; try done.
  by rewrite lookup_insert_ne.
Qed.

Lemma keeps_item k k' : keeps k (item k').
Proof. by intros x user_info. Qed.

Lemma keeps_run {A} k (c : P A) user_info :
  keeps k c → (c user_info).2 !! k = user_info !! k.
Proof. intros Hc. by apply (Hc (user_info !! k)). Qed.

Lemma keeps_returning k (c : P unit) user_info user_info' :
  keeps k c → returning c user_info = Ok user_info' →
  user_info' !! k = user_info !! k.
Proof.
  intros Hc Hr%returning_Ok. rewrite <-(keeps_run k c user_info Hc).
  by rewrite Hr.
Qed.

(** Proof search for [keeps]: through the monad, case by case on what
    the page answers, down to the assignments. *)
Ltac keeps_step :=
  lazy beta iota;
  match goal with
  | |- keeps _ _ => intros ?
  | |- preserves _ (bind (lift (not_none None)) _) => by intros ?
  | |- preserves _ (bind _ _) => apply preserves_bind; [|intros ?]
  | |- preserves _ (try_ _ _) => apply preserves_try
  | |- preserves _ (ret _) => apply preserves_ret
  | |- preserves _ (raise _) => apply preserves_raise
  | |- preserves _ (lift _) => apply preserves_lift
  | |- preserves _ (for_ _ _) => apply preserves_for
  | |- Forall _ [] => constructor
  | |- Forall _ (_ :: _) => constructor
  | |- Forall _ _ => apply Forall_forall; intros ? _
  | |- preserves _ (item _) => by apply keeps_item
  | |- preserves _ (assign _ _) => by apply keeps_assign
  | |- preserves _ (append_to _ _) => by apply keeps_append_to
  | |- preserves _ (store_in _ _ _) => by apply keeps_store_in
  | |- preserves _ (match ?x with _ => _ end) => destruct x
  | |- preserves _ (if ?x then _ else _) => destruct x
  end.

Ltac split_not_elem_of H :=
  repeat (apply not_elem_of_cons in H as [? H]).

Lemma lift_Ok {S A} (r : result A) (s s' : S) a : lift r s = (Ok a, s') → r = Ok a ∧ s' = s.
Proof. unfold lift. by intros [= -> ->]. Qed.

Lemma succeeds_run {S A} (c : ST S A) s : succeeds c → ∃ a s', c s = (Ok a, s').
Proof. intros Hc. destruct (Hc s) as [a Ha]. destruct (c s) as [r s']. simpl in Ha. subst. eauto. Qed.

Lemma succeeds_assign k v : succeeds (assign k v).
Proof. intros s. by exists tt. Qed.

Ltac succeeds_step :=
  lazy beta iota;
  match goal with
  | |- succeeds (bind _ _) => apply succeeds_bind; [|intros ?]
  | |- succeeds (try_ true _) => apply succeeds_try
  | |- succeeds (ret _) => apply succeeds_ret
  | |- succeeds (assign _ _) => apply succeeds_assign
  | |- succeeds (for_ _ _) => apply succeeds_for; intros ?
  | |- succeeds (match ?x with _ => _ end) => destruct x
  end.

Lemma returning_bind {S A} (c : ST S A) (f : A → ST S unit) s a s1 :
  c s = (Ok a, s1) → returning (bind c f) s = returning (f a) s1.
Proof. intros Hc. unfold returning, bind. by rewrite Hc. Qed.

Ltac run_succeeds :=
  match goal with
  | |- context [returning (bind ?c ?f) ?s] =>
      let Hrun := fresh "Hrun" in
      destruct (succeeds_run c s) as (? & ? & Hrun);
      [repeat succeeds_step|rewrite (returning_bind c f s _ _ Hrun)]
  end.

Section Parser_facts.
Context `{Utilities}.

Lemma parse_sidebar_sets self page user_info k :
  parse_sidebar self page = Ok user_info → k ∉ sidebar_keys → user_info !! k = None.
Proof.
  unfold parse_sidebar, sidebar_keys. intros Hr Hk. split_not_elem_of Hk.
  eapply (keeps_returning k) in Hr; [by rewrite Hr|].
  repeat keeps_step.
Qed.

Lemma sidebar_keys_not_page_keys k : k ∈ sidebar_keys → k ∉ page_keys.
Proof.
  unfold sidebar_keys, page_keys. rewrite !elem_of_cons, elem_of_nil.
  intros Hk.
  repeat (destruct Hk as [->|Hk];
          [apply (bool_decide_unpack _); vm_compute; exact I|]).
  done.
Qed.

(** What the page parsers do after the sidebar leaves the other keys. *)
Lemma page_parser_keeps self page sidebar user_info k parser :
  parser ∈ [parse; parse_reviews; parse_recommendations; parse_clubs; parse_friends] →
  parse_sidebar self page = Ok sidebar →
  parser self page = Ok user_info →
  k ∉ page_keys →
  user_info !! k = sidebar !! k.
Proof.
  intros Hparser Hsidebar Hr Hk. unfold page_keys in Hk. split_not_elem_of Hk.
  rewrite !elem_of_cons, elem_of_nil in Hparser.
  destruct Hparser as [->|[->|[->|[->|[->|[]]]]]];
    unfold parse, parse_reviews, parse_recommendations, parse_clubs,
      parse_friends, list_page in Hr;
    rewrite Hsidebar in Hr;
    try (destruct (find_second_col page); [|done]);
    (eapply (keeps_returning k) in Hr; [done|]);
    unfold favorites_list, stats_block; repeat keeps_step.
Qed.

Lemma parse_sidebar_error404 self page :
  find_error404 page = true →
  parse_sidebar self page = Raise (InvalidUserError (VUnicode (username self))).
Proof. intros Herr. unfold parse_sidebar. by rewrite Herr. Qed.

Lemma page_parser_sidebar_raises self page parser e :
  parser ∈ [parse; parse_reviews; parse_recommendations; parse_clubs; parse_friends] →
  parse_sidebar self page = Raise e → parser self page = Raise e.
Proof.
  intros Hparser Hsidebar. rewrite !elem_of_cons, elem_of_nil in Hparser.
  destruct Hparser as [->|[->|[->|[->|[->|[]]]]]];
    unfold parse, parse_reviews, parse_recommendations, parse_clubs,
      parse_friends, list_page;
    by rewrite Hsidebar.
Qed.

Lemma general_fields_loop suppress (general_elt : StatusElt)
    (fields : list (string * string * (string → result value))) :
  ∀ user_info user_info',
  for_ fields (λ '(field_name, field_finder, parser),
      let field_elt := find_span field_finder general_elt in
      assign field_name VNone >>
      match field_elt with
      | Some next_sibling_text =>
          try_ suppress (
            let! text := lift next_sibling_text in
            let! parsed := lift (parser text) in
            assign field_name parsed)
      | None => ret tt
      end) user_info = (Ok tt, user_info') →
  NoDup fields.*1.*1 →
  ∀ name finder parser, (name, finder, parser) ∈ fields →
    user_info' !! name = Some (field_value general_elt finder parser).
Proof.
  induction fields as [|[[n f] p] fields IH]; intros user_info user_info' Hrun Hnodup name finder parser Hin.
  - by apply elem_of_nil in Hin.
  - simpl in Hrun. apply bind_Ok in Hrun as ([] & s1 & Hhead & Hrest).
    simpl in Hnodup. apply NoDup_cons in Hnodup as [Hn Hnodup].
    apply elem_of_cons in Hin as [[= -> -> ->]|Hin]; [|by eapply IH].
    assert (s1 !! n = Some (field_value general_elt f p)) as <-.
    { revert Hhead. unfold field_value, bind, assign, modify, try_, lift.
      destruct (find_span f general_elt) as [[text|e]|]; simpl.
      - destruct (p text); simpl; destruct suppress; intros [= <-];
          by rewrite ?lookup_insert_eq.
      - destruct suppress; intros [= <-]; by rewrite lookup_insert_eq.
      - intros [= <-]. by rewrite lookup_insert_eq. }
    match type of Hrest with ?c _ = _ => rewrite <-(keeps_run n c s1) end.
    { by rewrite Hrest. }
    intros x. apply preserves_for, Forall_forall. intros [[n' f'] p'] Hin'.
    assert (n' ≠ n).
    { intros ->. apply Hn. apply list_elem_of_fmap. exists (n, f'). split; [done|].
      apply list_elem_of_fmap. by exists (n, f', p'). }
    repeat keeps_step.
Qed.

Lemma parse_sidebar_general self page user_info :
  parse_sidebar self page = Ok user_info →
  ∃ panel general_elt,
    find_user_profile page = Some panel ∧
    find_all_user_status panel !! 0%nat = Some general_elt ∧
    user_info !! "gender" = Some (sidebar_gender general_elt) ∧
    user_info !! "last_online" =
      Some (field_value general_elt "Last Online" parse_profile_date) ∧
    user_info !! "birthday" =
      Some (field_value general_elt "Birthday" parse_profile_date) ∧
    user_info !! "location" =
      Some (field_value general_elt "Location" (λ x, Ok (VUnicode x))) ∧
    user_info !! "join_date" =
      Some (field_value general_elt "Joined" parse_profile_date).
Proof.
  unfold parse_sidebar. intros Hr%returning_Ok.
  apply bind_Ok in Hr as ([] & s1 & _ & Hr).
  apply bind_Ok in Hr as ([] & s2 & _ & Hr).
  apply bind_Ok in Hr as ([] & s3 & _ & Hr).
  apply bind_Ok in Hr as (panel & s4 & [Hpanel ->]%lift_Ok & Hr).
  apply bind_Ok in Hr as (general_elt & s5 & [Hgen ->]%lift_Ok & Hr).
  apply bind_Ok in Hr as ([] & s6 & Hloop & Hr).
  apply bind_Ok in Hr as ([] & s7 & Hfix & Hr).
  exists panel, general_elt.
  split; [by destruct (find_user_profile page) as [?|]; simplify_eq/=|].
  split; [unfold index in Hgen; by destruct (_ !! 0%nat); simplify_eq/=|].
  pose proof (general_fields_loop _ _ _ _ _ Hloop) as Hfields.
  assert (∀ name finder parser,
    (name, finder, parser) ∈
      [("last_online", "Last Online", parse_profile_date);
       ("gender", "Gender", λ x : string, Ok (VUnicode x));
       ("birthday", "Birthday", parse_profile_date);
       ("location", "Location", λ x : string, Ok (VUnicode x));
       ("join_date", "Joined", parse_profile_date)] →
    s6 !! name = Some (field_value general_elt finder parser)) as Hs6.
  { apply Hfields. apply (bool_decide_unpack _). by vm_compute. }
  clear Hfields Hloop.
  assert (∀ k, k ∈ ["gender"; "last_online"; "birthday"; "location"; "join_date"] →
            user_info !! k = s7 !! k) as Hrest.
  { intros k Hk.
    match type of Hr with ?c _ = _ => rewrite <-(keeps_run k c s7) end;
      [by rewrite Hr|].
    rewrite !elem_of_cons, elem_of_nil in Hk.
    destruct Hk as [->|[->|[->|[->|[->|[]]]]]]; repeat keeps_step. }
  assert (s7 !! "gender" = Some (sidebar_gender general_elt) ∧
          ∀ k, k ≠ "gender" → s7 !! k = s6 !! k) as [Hgender Hothers].
  { pose proof (Hs6 "gender" "Gender" (λ x, Ok (VUnicode x))) as Hg.
    unfold field_value in Hg. revert Hfix.
    unfold bind, item, assign, modify, ret, sidebar_gender.
    rewrite Hg by set_solver. revert Hg.
    destruct (find_span "Gender" general_elt) as [[text|e]|]; simpl.
    - intros Hg. destruct (String.eqb text ""); simpl; intros [= <-].
      + split; [by rewrite lookup_insert_eq|].
        intros k Hk. by rewrite lookup_insert_ne.
      + split; [|done]. apply Hg. set_solver.
    - intros _ [= <-]. split; [by rewrite lookup_insert_eq|].
      intros k Hk. by rewrite lookup_insert_ne.
    - intros _ [= <-]. split; [by rewrite lookup_insert_eq|].
      intros k Hk. by rewrite lookup_insert_ne. }
  split; [rewrite Hrest by set_solver; done|].
  repeat split; (rewrite Hrest by set_solver); (rewrite Hothers by done);
    apply Hs6; set_solver.
Qed.

Lemma parse_sidebar_returns self page panel :
  suppress_parse_exceptions (session self) = true →
  find_error404 page = false →
  find_user_profile page = Some panel →
  (3 ≤ length (find_all_user_status panel))%nat →
  (∀ e, find_also_available panel ≠ Some (Raise e)) →
  ∃ user_info, parse_sidebar self page = Ok user_info.
Proof.
  intros Hsup Herr Hpanel Hlen Hweb. unfold parse_sidebar.
  rewrite Hsup, Herr, Hpanel.
  destruct (find_all_user_status panel) as [|general_elt [|elt1 [|stats_elt status_elts]]] eqn:Hstatus;
    simpl in Hlen; try lia.
  do 3 run_succeeds.
  erewrite returning_bind by reflexivity. rewrite Hstatus.
  erewrite returning_bind by reflexivity.
  run_succeeds.
  match goal with
  | Hloop : for_ _ _ _ = (Ok ?u, _) |- _ =>
      destruct u; pose proof (general_fields_loop _ _ _ _ _ Hloop) as Hfields
  end.
  specialize (Hfields ltac:(apply (bool_decide_unpack _); by vm_compute)
                "gender" "Gender" (λ x, Ok (VUnicode x)) ltac:(set_solver)).
  destruct (truthy (field_value general_elt "Gender" (λ x, Ok (VUnicode x))))
    eqn:Htruthy;
    (erewrite returning_bind
       by (unfold bind, item; rewrite Hfields, Htruthy; reflexivity));
    (erewrite returning_bind by reflexivity);
    run_succeeds; unfold returning;
    (destruct (find_also_available panel) as [[text|e]|] eqn:Hw;
     [eexists; reflexivity | by destruct (Hweb e) | eexists; reflexivity]).
Qed.

(** C9: every page parser ([parse], [parse_reviews],
    [parse_recommendations], [parse_clubs], [parse_friends]) starts with
    [parse_sidebar]: on a page where [parse_sidebar] raises it raises the
    same exception, and the mapping it returns holds every attribute that
    [parse_sidebar] extracts from that page, with the same value. *)
Theorem page_parsers_contain_sidebar self page parser :
  parser ∈ [parse; parse_reviews; parse_recommendations; parse_clubs; parse_friends] →
  match parse_sidebar self page with
  | Raise e => parser self page = Raise e
  | Ok sidebar =>
      ∀ user_info, parser self page = Ok user_info →
        ∀ k v, sidebar !! k = Some v → user_info !! k = Some v
  end.
Proof.
  intros Hparser. destruct (parse_sidebar self page) as [sidebar|e] eqn:Hsidebar.
  - intros user_info Hr k v Hk.
    rewrite (page_parser_keeps _ _ _ _ k _ Hparser Hsidebar Hr); [done|].
    apply sidebar_keys_not_page_keys.
    destruct (decide (k ∈ sidebar_keys)) as [|Hnot]; [done|].
    by rewrite (parse_sidebar_sets _ _ _ _ Hsidebar Hnot) in Hk.
  - by apply page_parser_sidebar_raises.
Qed.

Lemma truthy_sidebar_gender general_elt : truthy (sidebar_gender general_elt) = true.
Proof.
  unfold sidebar_gender.
  destruct (find_span "Gender" general_elt) as [[text|e]|]; try done.
  destruct (String.eqb text "") eqn:E; [done|]. simpl. by rewrite E.
Qed.

(** C10: when [parse_sidebar] returns a mapping, its gender entry is
    there and is not empty: it is the text next to the Gender label of
    the first status list when that text is there and not empty, and the
    string 'Not specified' when the label is absent, its text cannot be
    read or the text is empty. *)
Theorem parse_sidebar_gender self page user_info :
  parse_sidebar self page = Ok user_info →
  ∃ panel general_elt gender,
    find_user_profile page = Some panel ∧
    find_all_user_status panel !! 0%nat = Some general_elt ∧
    user_info !! "gender" = Some gender ∧
    truthy gender = true ∧
    gender =
      match find_span "Gender" general_elt with
      | Some (Ok text) =>
          if String.eqb text "" then VStr "Not specified" else VUnicode text
      | _ => VStr "Not specified"
      end.
Proof.
  intros (panel & general_elt & ? & ? & Hgender & _)%parse_sidebar_general.
  exists panel, general_elt, (sidebar_gender general_elt).
  eauto using truthy_sidebar_gender.
Qed.

(** In permissive mode [parse] returns whenever [parse_sidebar] does. *)
Lemma parse_returns self page sidebar :
  suppress_parse_exceptions (session self) = true →
  parse_sidebar self page = Ok sidebar →
  ∃ user_info, parse self page = Ok user_info.
Proof.
  intros Hsup Hsidebar. unfold parse. rewrite Hsidebar.
  apply succeeds_returning. unfold favorites_list, stats_block. rewrite Hsup.
  repeat succeeds_step.
Qed.

(** Without a statistics section [parse] sets neither stats entry. *)
Lemma parse_without_statistics self page user_info k :
  find_statistics page = None →
  parse self page = Ok user_info →
  k ∈ ["anime_stats"; "manga_stats"] →
  user_info !! k = None.
Proof.
  intros Hstats Hr Hk. unfold parse in Hr.
  destruct (parse_sidebar self page) as [sidebar|e] eqn:Hsidebar; [|done].
  eapply (keeps_returning k) in Hr.
  - rewrite Hr. apply (parse_sidebar_sets _ _ _ _ Hsidebar).
    rewrite !elem_of_cons, elem_of_nil in Hk.
    apply (bool_decide_unpack _).
    by destruct Hk as [->|[->|[]]]; vm_compute.
  - unfold favorites_list, stats_block. rewrite Hstats.
    rewrite !elem_of_cons, elem_of_nil in Hk.
    destruct Hk as [->|[->|[]]]; repeat keeps_step.
Qed.

End Parser_facts.

(** ** The entity and its loaders *)

Lemma init_attrs_unset (names : list string) : ∀ (self : gmap string value) k,
  attr self k = VNone →
  attr (foldl (λ self k, <[k := VNone]> self) self names) k = VNone.
Proof.
  induction names as [|name names IH]; intros self k Hk; simpl; [done|].
  apply IH. unfold attr. destruct (decide (name = k)) as [->|].
  - by rewrite lookup_insert_eq.
  - by rewrite lookup_insert_ne.
Qed.

Lemma init_attrs_None (names : list string) : ∀ (self : gmap string value) k,
  k ∈ names →
  foldl (λ self k, <[k := VNone]> self) self names !! k = Some VNone.
Proof.
  induction names as [|name names IH] using rev_ind; intros self k Hk.
  - by apply elem_of_nil in Hk.
  - rewrite foldl_app. simpl. destruct (decide (name = k)) as [->|].
    + by rewrite lookup_insert_eq.
    + rewrite lookup_insert_ne by done. apply IH.
      apply elem_of_app in Hk as [|Hk]; [done|].
      by apply list_elem_of_singleton in Hk.
Qed.

(** A user [__init__] returns is in the session given, with every
    attribute [None]. *)
Lemma init_user (a_session : Session) name user :
  __init__ a_session (VUnicode name) = Ok user →
  session user = a_session ∧ ∀ k, attr (attrs user) k = VNone.
Proof.
  unfold __init__. destruct (String.length name <? 1)%nat; [done|].
  intros Hinit.
  pose proof (f_equal (λ r, match r with Ok u => session u | Raise _ => a_session end)
                Hinit) as Hsession.
  pose proof (f_equal (λ r, match r with Ok u => attrs u | Raise _ => ∅ end)
                Hinit) as Hattrs.
  cbn beta iota in Hsession, Hattrs. cbn [session attrs] in Hsession, Hattrs.
  split; [by symmetry|].
  intros k. rewrite <- Hattrs. by apply (init_attrs_unset init_attributes ∅).
Qed.

(** C8: [User.__init__] raises [InvalidUserError] for a username that
    is not a unicode string or is empty; for a non-empty unicode string it
    returns a user of that session and name whose attributes are all
    [None]. *)
Theorem init_checks_username (a_session : Session) (given : value) :
  match given with
  | VUnicode "" => __init__ a_session given = Raise (InvalidUserError given)
  | VUnicode name =>
      ∃ user, __init__ a_session given = Ok user ∧
        session user = a_session ∧
        username user = name ∧
        (∀ k, k ∈ init_attributes → attrs user !! k = Some VNone) ∧
        (∀ k, attr (attrs user) k = VNone)
  | _ => __init__ a_session given = Raise (InvalidUserError given)
  end.
Proof.
  destruct given as [| | | |name| | | |]; try done.
  destruct name as [|a name]; [done|].
  eexists. do 3 (split; [reflexivity|]). split.
  - intros k Hk. by apply (init_attrs_None init_attributes ∅).
  - intros k. by apply (init_attrs_unset init_attributes ∅).
Qed.

Lemma attr_set_Some (attr_dict self : gmap string value) k v :
  attr_dict !! k = Some v → attr (set attr_dict self) k = v.
Proof. intros Hk. unfold attr, set. by rewrite (lookup_union_Some_l _ _ _ _ Hk). Qed.

Lemma attr_set_None (attr_dict self : gmap string value) k :
  attr_dict !! k = None → attr (set attr_dict self) k = attr self k.
Proof. intros Hk. unfold attr, set. by rewrite lookup_union_r. Qed.

Section Loader_facts.
Context `{Utilities}.

Lemma parser_of_elem func :
  parser_of func ∈ [parse; parse_reviews; parse_recommendations; parse_clubs; parse_friends].
Proof. destruct func; simpl; set_solver. Qed.

(** What a loader does when the parser of its first page raises. *)
Lemma call_parser_raises func fuel st page e :
  get (session (self st)) (requests st) (url_of func (self st)) = Ok page →
  parser_of func (self st) page = Raise e →
  call func (S fuel) st =
    Some (Raise e, {| self := self st;
                      requests := requests st ++ [url_of func (self st)] |}).
Proof.
  intros Hget Hparse.
  destruct func; simpl in *;
    unfold load, load_recommendations, load_clubs, load_friends, load_reviews,
      load_page, bind, http_get, lift; simpl;
    unfold bind, http_get, lift; simpl;
    by rewrite Hget, Hparse.
Qed.

(** C5: whatever the page kind and whether parse exceptions are
    suppressed or not, a loader whose first page carries the error404
    container raises [InvalidUserError] for the user, after that one
    request and with the user as it was. *)
Theorem missing_user_raises_InvalidUserError func fuel st page :
  get (session (self st)) (requests st) (url_of func (self st)) = Ok page →
  find_error404 page = true →
  call func (S fuel) st =
    Some (Raise (InvalidUserError (VUnicode (username (self st)))),
          {| self := self st;
             requests := requests st ++ [url_of func (self st)] |}).
Proof.
  intros Hget Herr. apply call_parser_raises with page; [done|].
  apply page_parser_sidebar_raises; [apply parser_of_elem|].
  by apply parse_sidebar_error404.
Qed.

(** C3: with parse exceptions suppressed, [load] of a new user on a
    profile page that has the sidebar but no statistics section returns
    without raising; anime_stats and manga_stats are still [None], and
    join_date, location, last_online, birthday and gender hold what the
    sidebar of that page gives. *)
Theorem load_without_statistics session name user served page panel general_elt :
  suppress_parse_exceptions session = true →
  __init__ session (VUnicode name) = Ok user →
  get session served (profile_url user) = Ok page →
  find_error404 page = false →
  find_user_profile page = Some panel →
  (3 ≤ length (find_all_user_status panel))%nat →
  find_all_user_status panel !! 0%nat = Some general_elt →
  (∀ e, find_also_available panel ≠ Some (Raise e)) →
  find_statistics page = None →
  ∃ st,
    load {| self := user; requests := served |} = (Ok tt, st) ∧
    attr (attrs (self st)) "anime_stats" = VNone ∧
    attr (attrs (self st)) "manga_stats" = VNone ∧
    attr (attrs (self st)) "join_date" =
      field_value general_elt "Joined" parse_profile_date ∧
    attr (attrs (self st)) "location" =
      field_value general_elt "Location" (λ x, Ok (VUnicode x)) ∧
    attr (attrs (self st)) "last_online" =
      field_value general_elt "Last Online" parse_profile_date ∧
    attr (attrs (self st)) "birthday" =
      field_value general_elt "Birthday" parse_profile_date ∧
    attr (attrs (self st)) "gender" = sidebar_gender general_elt.
Proof.
  intros Hsup Hinit Hget Herr Hpanel Hlen Hgen Hweb Hstats.
  destruct (init_user _ _ _ Hinit) as (Hsession & Hunset).
  destruct (parse_sidebar_returns user page panel) as [sidebar Hsidebar];
    [by rewrite Hsession|done..|].
  destruct (parse_returns user page sidebar) as [user_info Hparse];
    [by rewrite Hsession|done|].
  eexists. split.
  { unfold load, load_page, bind, http_get, lift, self_set, modify. cbn [self requests].
    rewrite Hsession, Hget, Hparse. reflexivity. }
  cbn [self attrs].
  destruct (parse_sidebar_general _ _ _ Hsidebar)
    as (panel' & general_elt' & Hpanel' & Hgen' & Hgender & Hlast & Hbirth & Hloc & Hjoin).
  assert (panel' = panel) as -> by congruence.
  assert (general_elt' = general_elt) as -> by congruence.
  assert (∀ k, k ∉ page_keys → user_info !! k = sidebar !! k) as Hkeep.
  { intros k Hk. apply (page_parser_keeps user page sidebar user_info k parse);
      [apply list_elem_of_here|done..]. }
  assert (∀ k, k ∈ ["anime_stats"; "manga_stats"] → user_info !! k = None) as Hnone.
  { intros k. apply (parse_without_statistics user page user_info k Hstats Hparse). }
  split; [|split].
  - rewrite attr_set_None; [apply Hunset|]. apply Hnone, list_elem_of_here.
  - rewrite attr_set_None; [apply Hunset|].
    apply Hnone, list_elem_of_further, list_elem_of_here.
  - repeat split; apply attr_set_Some; rewrite Hkeep;
      try done; apply (bool_decide_unpack _); by vm_compute.
Qed.

End Loader_facts.

(** ** Reviews *)

Lemma preserves_bind_lift {S A B} (I : S → Prop) (r : result A) (f : A → ST S B) :
  (∀ a, r = Ok a → preserves I (f a)) → preserves I (bind (lift r) f).
Proof.
  intros Hf s Hs. unfold bind, lift. destruct r as [a|e]; [by apply Hf|done].
Qed.

Lemma natural_key_eqb_refl k : natural_key_eqb k k = true.
Proof. destruct k; simpl; [apply Z.eqb_refl|apply String.eqb_refl]. Qed.

Lemma linked_key session name key attribute text obj :
  linked session name key attribute text = Ok obj → key_eqb obj obj = true.
Proof.
  unfold linked, obj_set. destruct (entity session name key) as [[]|]; try done.
  intros [= <-]. simpl. by rewrite String.eqb_refl, natural_key_eqb_refl.
Qed.

Lemma reviews_unique_store media review_info :
  key_eqb media media = true →
  preserves reviews_unique (store_in "reviews" media review_info).
Proof.
  intros Hmedia user_info Hunique. unfold store_in.
  destruct (user_info !! "reviews") as [[]|] eqn:E; simpl; try done.
  intros d'. rewrite lookup_insert_eq. intros [= <-].
  apply unique_keys_set; [done|]. by apply Hunique.
Qed.

Section Review_facts.
Context `{Utilities}.

Lemma parse_reviews_unique_keys self page user_info d :
  parse_reviews self page = Ok user_info →
  reviews_of user_info = Ok d →
  unique_keys d.
Proof.
  unfold parse_reviews, list_page, reviews_of.
  destruct (parse_sidebar self page) as [sidebar|e] eqn:Hsidebar; [|done].
  destruct (find_second_col page) as [second_col|e]; [|done].
  intros Hr%returning_Ok Hd.
  assert (reviews_unique user_info) as Hunique.
  { change user_info with (Ok (A:=unit) tt, user_info).2. rewrite <-Hr.
    match goal with |- reviews_unique (?c _).2 => assert (preserves reviews_unique c) as Hc end.
    { apply preserves_try, preserves_bind.
      - intros user_info' _ d'. simpl. rewrite lookup_insert_eq. by intros [= <-].
      - intros _. apply preserves_for, Forall_forall. intros row _.
        repeat first
          [ apply preserves_bind_lift; intros ? ?
          | match goal with
            | |- preserves _ (match ?x with _ => _ end) => destruct x
            | |- preserves _ (store_in _ _ _) =>
                apply reviews_unique_store; by eapply linked_key
            end ]. }
    apply Hc. intros d'.
    rewrite (parse_sidebar_sets _ _ _ "reviews" Hsidebar); [done|].
    apply (bool_decide_unpack _). by vm_compute. }
  apply Hunique. destruct (user_info !! "reviews") as [[]|]; by simplify_eq.
Qed.

Lemma serves_reviews_attrs self self' pages : ∀ served page last,
  session self' = session self →
  username self' = username self →
  serves_reviews self served page pages last →
  serves_reviews self' served page pages last.
Proof.
  destruct self as [s u a], self' as [s' u' a']. simpl. intros served page last -> ->.
  revert served page.
  induction pages as [|[[doc m] d] pages IH]; intros served page; simpl; [done|].
  intros (? & ? & ? & ? & ?). repeat split; try done. by apply IH.
Qed.

Lemma serves_reviews_unique self pages : ∀ served page last,
  serves_reviews self served page pages last → Forall unique_keys pages.*2.
Proof.
  induction pages as [|[[doc m] d] pages IH]; intros served page last; simpl.
  - constructor.
  - intros (_ & Hparse & Hd & _ & Hrest). constructor; [|by eapply IH].
    by eapply parse_reviews_unique_keys.
Qed.

Lemma collect_reviews_serves pages : ∀ fuel page review_collection st last,
  serves_reviews (self st) (requests st) page pages last →
  (length pages < fuel)%nat →
  ∃ st',
    collect_reviews fuel page review_collection st =
      Some (Ok (review_collection ++ pages.*2)%list, st') ∧
    requests st' =
      (requests st ++ map (reviews_url (self st)) (seq page (S (length pages))))%list ∧
    session (self st') = session (self st) ∧
    username (self st') = username (self st) ∧
    attrs (self st') =
      if (page =? 0)%nat then set (first_result pages last) (attrs (self st))
      else attrs (self st).
Proof.
  induction pages as [|[[doc m] d] pages IH];
    intros fuel page review_collection st last Hserves Hfuel;
    (destruct fuel as [|fuel]; [simpl in Hfuel; lia|]); simpl in Hserves.
  - destruct Hserves as (Hget & Hparse & Hreviews).
    destruct (page =? 0)%nat eqn:Hpage; eexists;
      (split;
       [simpl; unfold bind, http_get, lift; rewrite Hget, Hparse; cbn [self];
        rewrite Hpage; simpl; rewrite Hreviews; simpl; rewrite app_nil_r;
        reflexivity
       |done]).
  - destruct Hserves as (Hget & Hparse & Hreviews & Hd & Hrest).
    set (st2 := (if (page =? 0)%nat
                 then {| self := {| session := session (self st);
                                    username := username (self st);
                                    attrs := set m (attrs (self st)) |};
                         requests := requests st ++ [reviews_url (self st) page] |}
                 else {| self := self st;
                         requests := requests st ++ [reviews_url (self st) page] |})).
    assert (collect_reviews (S fuel) page review_collection st =
            collect_reviews fuel (S page) (review_collection ++ [d])%list st2) as ->.
    { simpl. unfold bind, http_get, lift. rewrite Hget, Hparse. cbn [self].
      subst st2. destruct (page =? 0)%nat; simpl; rewrite Hreviews;
        by destruct d. }
    assert (session (self st2) = session (self st) ∧
            username (self st2) = username (self st) ∧
            requests st2 = (requests st ++ [reviews_url (self st) page])%list ∧
            attrs (self st2) =
              if (page =? 0)%nat then set m (attrs (self st)) else attrs (self st))
      as (Hsession & Husername & Hrequests & Hattrs).
    { subst st2. by destruct (page =? 0)%nat. }
    destruct (IH fuel (S page) (review_collection ++ [d])%list st2 last)
      as (st' & Hrun & Hreq' & Hs' & Hu' & Ha').
    { rewrite Hrequests. by eapply serves_reviews_attrs. }
    { simpl in Hfuel. lia. }
    exists st'. split; [|split; [|split; [|split]]].
    + rewrite Hrun. simpl. by rewrite <-app_assoc.
    + rewrite Hreq', Hrequests, <-app_assoc.
      rewrite (map_ext (reviews_url (self st2)) (reviews_url (self st))); [done|].
      intros p. unfold reviews_url, profile_url. by rewrite Husername.
    + congruence.
    + congruence.
    + rewrite Ha'. simpl. done.
Qed.

Lemma dict_get_merge k review_collection :
  Forall unique_keys review_collection →
  dict_get k (merge review_collection) = last_entry k review_collection.
Proof. intros Hunique. by apply dict_get_merge_from. Qed.

(** C2: [load_reviews] asks for the reviews pages 0, 1, 2, ... in this
    order and stops at the first one whose reviews are empty: when the
    site serves [pages], none of them empty, and then an empty page, it
    returns with enough fuel after [length pages + 1] requests (3 for two
    pages), and the reviews attribute is the merge of the pages' reviews:
    every entry of the merge is an entry of a page, and every key of a
    page is a key of the merge. *)
Theorem load_reviews_pages st pages last fuel :
  serves_reviews (self st) (requests st) 0 pages last →
  (length pages < fuel)%nat →
  ∃ st',
    load_reviews fuel st = Some (Ok tt, st') ∧
    requests st' =
      (requests st ++ map (reviews_url (self st)) (seq 0 (S (length pages))))%list ∧
    length (requests st') = (length (requests st) + S (length pages))%nat ∧
    attr (attrs (self st')) "reviews" = VDict (merge pages.*2) ∧
    (∀ k v, dict_get k (merge pages.*2) = Some v →
       ∃ d, d ∈ pages.*2 ∧ dict_get k d = Some v) ∧
    (∀ k d, d ∈ pages.*2 → is_Some (dict_get k d) →
       is_Some (dict_get k (merge pages.*2))).
Proof.
  intros Hserves Hfuel.
  destruct (collect_reviews_serves pages fuel 0 [] st last Hserves Hfuel)
    as (st1 & Hrun & Hrequests & _ & _ & _).
  pose proof (serves_reviews_unique _ _ _ _ _ Hserves) as Hunique.
  eexists. split; [|split; [|split; [|split; [|split]]]].
  - unfold load_reviews. rewrite Hrun. reflexivity.
  - simpl. exact Hrequests.
  - cbn [requests self_set modify snd]. rewrite Hrequests.
    rewrite length_app, length_map, length_seq. done.
  - simpl. apply attr_set_Some. by rewrite lookup_singleton_eq.
  - intros k v. rewrite dict_get_merge by done. apply last_entry_Some.
  - intros k d Hd Hk. rewrite dict_get_merge by done.
    apply last_entry_is_Some. eauto.
Qed.
(** C6, as the code has it: in the reviews [load_reviews] sets, the
    entry of a media key is the entry of the last page that has the key:
    a later page's entry replaces an earlier page's entry for the same
    key. *)
Theorem load_reviews_keeps_last_page st pages last fuel :
  serves_reviews (self st) (requests st) 0 pages last →
  (length pages < fuel)%nat →
  ∃ st' merged,
    load_reviews fuel st = Some (Ok tt, st') ∧
    attr (attrs (self st')) "reviews" = VDict merged ∧
    ∀ k, dict_get k merged = last_entry k pages.*2.
Proof.
  intros Hserves Hfuel.
  destruct (collect_reviews_serves pages fuel 0 [] st last Hserves Hfuel)
    as (st1 & Hrun & _).
  eexists _, (merge pages.*2). split; [|split].
  - unfold load_reviews. rewrite Hrun. reflexivity.
  - simpl. apply attr_set_Some. by rewrite lookup_singleton_eq.
  - intros k. apply dict_get_merge. by eapply serves_reviews_unique.
Qed.

End Review_facts.

(** ** Strict and permissive sessions *)

Section agree_facts.
Context {S : Type}.

Lemma agree_refl {A} (c : ST S A) : agree c c.
Proof. by intros s a s'. Qed.

Lemma agree_bind {A B} (c c' : ST S A) (f f' : A → ST S B) :
  agree c c' → (∀ a, agree (f a) (f' a)) → agree (bind c f) (bind c' f').
Proof.
  intros Hc Hf s b s' (a & s1 & Hrun & Hrest)%bind_Ok.
  unfold bind. rewrite (Hc _ _ _ Hrun). by apply Hf.
Qed.

Lemma agree_try sup (body : ST S unit) : agree (try_ false body) (try_ sup body).
Proof.
  intros s a s'. unfold try_. destruct (body s) as [[[]|e] s1]; [done|].
  by destruct sup.
Qed.

Lemma agree_for {X} (xs : list X) (body body' : X → ST S unit) :
  (∀ x, agree (body x) (body' x)) → agree (for_ xs body) (for_ xs body').
Proof.
  intros Hbody. induction xs; simpl; [apply agree_refl|].
  by apply agree_bind.
Qed.

Lemma agree_returning (c c' : ST S unit) s s' :
  agree c c' → returning c s = Ok s' → returning c' s = Ok s'.
Proof. intros Hc Hr%returning_Ok. apply returning_Ok. by apply Hc. Qed.

End agree_facts.

Ltac agree_step :=
  lazy beta iota;
  match goal with
  | |- agree ?c ?c => apply agree_refl
  | |- agree (try_ false _) (try_ _ _) => apply agree_try
  | |- agree (bind _ _) (bind _ _) => apply agree_bind; [|intros ?]
  | |- agree (for_ _ _) (for_ _ _) => apply agree_for; intros ?
  | |- agree (match ?x with _ => _ end) (match ?x with _ => _ end) => destruct x
  end.

Section Strict_facts.
Context `{Utilities}.

Lemma parse_sidebar_permissive self page user_info :
  suppress_parse_exceptions (session self) = false →
  parse_sidebar self page = Ok user_info →
  parse_sidebar (permissive self) page = Ok user_info.
Proof.
  intros Hstrict. unfold parse_sidebar. cbn [permissive session suppress_parse_exceptions username].
  rewrite Hstrict. apply agree_returning. repeat agree_step.
Qed.

Lemma page_parser_permissive self page user_info parser :
  parser ∈ [parse; parse_reviews; parse_recommendations; parse_clubs; parse_friends] →
  suppress_parse_exceptions (session self) = false →
  parser self page = Ok user_info →
  parser (permissive self) page = Ok user_info.
Proof.
  intros Hparser Hstrict Hr.
  assert (∃ sidebar, parse_sidebar self page = Ok sidebar) as [sidebar Hsidebar].
  { destruct (parse_sidebar self page) as [sidebar|e] eqn:Hsidebar; [eauto|].
    by rewrite (page_parser_sidebar_raises _ _ _ _ Hparser Hsidebar) in Hr. }
  pose proof (parse_sidebar_permissive _ _ _ Hstrict Hsidebar) as Hsidebar'.
  revert Hr. rewrite !elem_of_cons, elem_of_nil in Hparser.
  destruct Hparser as [->|[->|[->|[->|[->|[]]]]]];
    unfold parse, parse_reviews, parse_recommendations, parse_clubs,
      parse_friends, list_page;
    rewrite Hsidebar, Hsidebar';
    try (destruct (find_second_col page); [|done]);
    unfold favorites_list, stats_block, linked;
    cbn [permissive session suppress_parse_exceptions username entity];
    rewrite Hstrict;
    apply agree_returning; repeat agree_step.
Qed.
End Strict_facts.

(** ** Malformed fields in a strict session *)

Section fails_facts.
Context {S : Type}.

Lemma fails_lift {A} e : fails (lift (S:=S) (A:=A) (Raise e)).
Proof. intros s. by exists e. Qed.

Lemma fails_raise {A} e : fails (raise (S:=S) (A:=A) e).
Proof. intros s. by exists e. Qed.

Lemma fails_bind_l {A B} (c : ST S A) (k : A → ST S B) : fails c → fails (bind c k).
Proof.
  intros Hc s. destruct (Hc s) as [e He]. exists e. unfold bind.
  destruct (c s) as [[a|e'] s1]; simpl in *; congruence.
Qed.

Lemma fails_bind_r {A B} (c : ST S A) (k : A → ST S B) :
  (∀ a, fails (k a)) → fails (bind c k).
Proof.
  intros Hk s. unfold bind. destruct (c s) as [[a|e] s1]; [apply Hk|by exists e].
Qed.

Lemma fails_bind_Ok {A B} (a : A) (k : A → ST S B) :
  fails (k a) → fails (bind (lift (Ok a)) k).
Proof. intros Hk s. apply Hk. Qed.

Lemma fails_try (body : ST S unit) : fails body → fails (try_ false body).
Proof.
  intros Hbody s. destruct (Hbody s) as [e He]. exists e. unfold try_.
  destruct (body s) as [[[]|e'] s1]; simpl in *; congruence.
Qed.

Lemma fails_for {X} (xs : list X) (body : X → ST S unit) x :
  x ∈ xs → fails (body x) → fails (for_ xs body).
Proof.
  intros Hx Hbody. induction xs as [|y xs IH]; [by apply elem_of_nil in Hx|].
  cbn [for_]. apply elem_of_cons in Hx as [<-|Hx].
  - by apply fails_bind_l.
  - apply fails_bind_r. intros _. by apply IH.
Qed.

Lemma fails_returning (c : ST S unit) s : fails c → ∃ e, returning c s = Raise e.
Proof.
  intros Hc. destruct (Hc s) as [e He]. exists e. unfold returning.
  destruct (c s) as [[[]|e'] s1]; simpl in *; congruence.
Qed.

End fails_facts.

(** A row whose entry cannot be made makes the body of its loop raise. *)
Ltac entry_fails Hentry :=
  let s := fresh "s" in
  intros s; revert Hentry;
  unfold general_entry, favorite_entry, character_entry, list_update_entry,
    review_entry, recommendation_entry, club_entry, friend_entry, count_value,
    evaluate, bind, lift, ret, not_none, assign, modify, store_in, append_to;
  repeat match goal with
         | |- context [match ?x with _ => _ end] =>
             lazymatch x with
             | context [match _ with _ => _ end] => fail
             | _ => destruct x eqn:?
             end
         end;
  simpl; try done; eauto.

(** Finds the statement that raises. *)
Ltac fails_search :=
  lazy beta iota zeta; cbn [not_none];
  repeat match goal with
         | H : ?l = _ |- fails ?c =>
             match c with context [l] => rewrite H end
         end;
  lazy beta iota zeta; cbn [not_none];
  match goal with
  | |- fails (lift (Raise _)) => apply fails_lift
  | |- fails (raise _) => apply fails_raise
  | |- fails (try_ false _) => apply fails_try; fails_search
  | |- fails (bind (lift (Ok _)) _) => apply fails_bind_Ok; fails_search
  | H : ?x ∈ ?xs |- fails (for_ ?xs _) => apply (fails_for _ _ x H); fails_search
  | |- fails (bind _ _) =>
      (apply fails_bind_l; fails_search) || (apply fails_bind_r; intros ?; fails_search)
  | H : _ = Raise _ |- fails _ => solve [entry_fails H]
  | H : _ = None |- fails _ => solve [entry_fails H]
  end.

Section Malformed_facts.
Context `{Utilities}.

(** In a strict session a malformed field of the sidebar makes
    [parse_sidebar] raise. *)
Lemma malformed_sidebar_raises self page panel :
  suppress_parse_exceptions (session self) = false →
  find_user_profile page = Some panel →
  malformed_sidebar panel →
  ∃ e, parse_sidebar self page = Raise e.
Proof.
  intros Hstrict Hpanel Hmalformed. unfold parse_sidebar.
  apply fails_returning. rewrite Hstrict.
  destruct Hmalformed as [e Hpicture|e Hid
    |general_elt name finder parser text e Hgeneral Hin Hspan Hentry
    |stats_elt name finder Hstats Hin Hcount].
  - fails_search.
  - fails_search.
  - unfold index. fails_search.
  - unfold index. fails_search.
Qed.

(** In a strict session a malformed field makes the parser of the page
    raise. *)
Lemma malformed_raises self page func :
  suppress_parse_exceptions (session self) = false →
  malformed self page func →
  ∃ e, parser_of func self page = Raise e.
Proof.
  intros Hstrict Hmalformed.
  destruct (parse_sidebar self page) as [sidebar|e0] eqn:Hsidebar.
  2:{ exists e0. by apply page_parser_sidebar_raises; [apply parser_of_elem|]. }
  destruct Hmalformed as [func panel Hpanel Hfield
    |e Hcomments
    |section position field_name name Hfavorites Hin Hrows
    |section Hfavorites Hrows
    |rows row e Hrows Hin Hentry
    |Hstatistics
    |stats_tag Hstatistics Hstats
    |stats_tag Hstatistics Hstats
    |e Habout
    |second_col row e Hcol Hin Hentry
    |second_col first rows row e Hcol Hrows Hin Hentry
    |second_col clubs row e Hcol Hclubs Hin Hentry
    |second_col row e Hcol Hin Hentry].
  - destruct (malformed_sidebar_raises self page panel Hstrict Hpanel Hfield) as [e He].
    congruence.
  - cbn [parser_of]. unfold parse. rewrite Hsidebar, Hstrict.
    apply fails_returning. fails_search.
  - cbn [parser_of]. unfold parse. rewrite Hsidebar, Hstrict.
    apply fails_returning. unfold favorites_list, index. rewrite Hstrict.
    rewrite !elem_of_cons, elem_of_nil in Hin.
    destruct Hin as [[= -> -> ->]|[[= -> -> ->]|[[= -> -> ->]|[]]]];
      destruct Hrows as [Hnone|l row e Hsome Hin Hentry]; fails_search.
  - cbn [parser_of]. unfold parse. rewrite Hsidebar, Hstrict.
    apply fails_returning. unfold index.
    destruct Hrows as [Hnone|l row e Hsome Hin Hentry]; fails_search.
  - cbn [parser_of]. unfold parse. rewrite Hsidebar, Hstrict.
    apply fails_returning. fails_search.
  - cbn [parser_of]. unfold parse. rewrite Hsidebar, Hstrict.
    apply fails_returning. unfold stats_block. rewrite Hstrict. fails_search.
  - cbn [parser_of]. unfold parse. rewrite Hsidebar, Hstrict.
    apply fails_returning. unfold stats_block, index. rewrite Hstrict.
    destruct Hstats as [Hnone|header e Hheader Hdays|header e Hheader Hmean
      |header i Hheader Hi Htable|header table metric e Hheader Htable Hin Hmetric
      |header table metric e Hheader Htable Hin Hmetric];
      try (destruct i as [|[|i]]; [| |lia]); fails_search.
  - cbn [parser_of]. unfold parse. rewrite Hsidebar, Hstrict.
    apply fails_returning. unfold stats_block, index. rewrite Hstrict.
    destruct Hstats as [Hnone|header e Hheader Hdays|header e Hheader Hmean
      |header i Hheader Hi Htable|header table metric e Hheader Htable Hin Hmetric
      |header table metric e Hheader Htable Hin Hmetric];
      try (destruct i as [|[|i]]; [| |lia]); fails_search.
  - cbn [parser_of]. unfold parse. rewrite Hsidebar, Hstrict.
    apply fails_returning. fails_search.
  - cbn [parser_of]. unfold parse_reviews, list_page. rewrite Hsidebar, Hcol, Hstrict.
    apply fails_returning. fails_search.
  - cbn [parser_of]. unfold parse_recommendations, list_page.
    rewrite Hsidebar, Hcol, Hstrict. apply fails_returning. fails_search.
  - cbn [parser_of]. unfold parse_clubs, list_page. rewrite Hsidebar, Hcol, Hstrict.
    apply fails_returning. fails_search.
  - cbn [parser_of]. unfold parse_friends, list_page. rewrite Hsidebar, Hcol, Hstrict.
    apply fails_returning. fails_search.
Qed.

End Malformed_facts.

(** ** Setting and reading attributes *)

Section Read_facts.
Context `{Utilities}.

(** C4, for the first page of a load: in a session that does not
    suppress parse exceptions, when a field of the page a loader fetches
    first is malformed (an expression of one of the [try] blocks of its
    parser raises on that page), the parser raises, the load raises the
    same exception after that one request, and the user is as it was:
    nothing of the page is set.  This covers the profile,
    recommendations, clubs and friends loads and page 0 of the reviews
    load. *)
Theorem strict_load_is_all_or_nothing func fuel st page :
  suppress_parse_exceptions (session (self st)) = false →
  get (session (self st)) (requests st) (url_of func (self st)) = Ok page →
  malformed (self st) page func →
  ∃ e,
    parser_of func (self st) page = Raise e ∧
    call func (S fuel) st =
      Some (Raise e, {| self := self st;
                        requests := requests st ++ [url_of func (self st)] |}).
Proof.
  intros Hstrict Hget Hmalformed.
  destruct (malformed_raises _ _ _ Hstrict Hmalformed) as [e Hparse].
  exists e. split; [done|]. by apply call_parser_raises with page.
Qed.




Lemma read_cached fuel name st v :
  loadable name ≠ None → attrs (self st) !! name = Some v → v ≠ VNone →
  read fuel name st = Some (Ok v, st).
Proof.
  intros Hname Hv Hset. unfold read, getattr. rewrite Hv.
  destruct (loadable name); [|done]. by destruct v.
Qed.


End Read_facts.

(** ** Runs on the test bench *)

(** [satou] is the state of the user [__init__] makes. *)
Lemma fresh_satou a_session : fresh a_session "satou" = Ok (satou a_session).
Proof. reflexivity. Qed.

(** The test site serves the two reviews pages, then an empty one. *)
Lemma serves_two_review_pages :
  serves_reviews (H:=test_utilities) (self permissive_satou) (requests permissive_satou) 0
    (parsed (self permissive_satou) <$> two_review_pages)
    (reviews_page [], (parsed (self permissive_satou) (reviews_page [])).1.2).
Proof.
  cbn [serves_reviews fmap list_fmap two_review_pages].
  repeat split; try (vm_compute; reflexivity); by vm_compute.
Qed.

(** A result that [returns] is a value. *)
Lemma returns_Ok {A} (r : result A) : returns r = true → ∃ a, r = Ok a.
Proof. destruct r as [a|e]; [by exists a|done]. Qed.




(** Two pages of reviews and an empty one: three requests. *)
Lemma load_reviews_pages_witness :
  ∃ st,
    load_reviews (H:=test_utilities) 5 permissive_satou = Some (Ok tt, st) ∧
    length (requests st) = 3%nat.
Proof.
  destruct (load_reviews_pages (H:=test_utilities) permissive_satou _ _ 5
              serves_two_review_pages) as (st & Hload & _ & Hlength & _).
  { simpl. lia. }
  exists st. split; [exact Hload|exact Hlength].
Defined.

(** The review of anime 1 is on both pages: the second page's stays. *)
Lemma load_reviews_keeps_last_page_witness :
  ∃ st merged,
    load_reviews (H:=test_utilities) 5 permissive_satou = Some (Ok tt, st) ∧
    attr (attrs (self st)) "reviews" = VDict merged ∧
    rating anime_1 (VDict merged) = Some (VInt 3).
Proof.
  destruct (load_reviews_keeps_last_page (H:=test_utilities) permissive_satou _ _ 5
              serves_two_review_pages) as (st & merged & Hload & Hreviews & Hlast).
  { simpl. lia. }
  exists st, merged. split; [exact Hload|]. split; [exact Hreviews|].
  unfold rating. rewrite Hlast. by vm_compute.
Defined.

(** satou's profile has no statistics section. *)
Lemma load_without_statistics_witness :
  ∃ st,
    load (H:=test_utilities) permissive_satou = (Ok tt, st) ∧
    attr (attrs (self st)) "anime_stats" = VNone ∧
    attr (attrs (self st)) "manga_stats" = VNone ∧
    attr (attrs (self st)) "join_date" = VDatetime 1200000000 ∧
    attr (attrs (self st)) "location" = VUnicode "Tokyo".
Proof.
  destruct (load_without_statistics (H:=test_utilities)
              (test_session true satou_profile two_review_pages) "satou"
              (self permissive_satou) [] satou_profile satou_sidebar
              [ ("Last Online", Ok "1400000000"); ("Gender", Ok "Male");
                ("Location", Ok "Tokyo"); ("Joined", Ok "1200000000") ])
    as (st & Hload & Hanime & Hmanga & Hjoin & Hlocation & _).
  - reflexivity.
  - reflexivity.
  - vm_compute. reflexivity.
  - reflexivity.
  - reflexivity.
  - simpl. lia.
  - reflexivity.
  - intros e. discriminate.
  - reflexivity.
  - exists st. split; [exact Hload|]. split; [exact Hanime|]. split; [exact Hmanga|].
    split; [rewrite Hjoin|rewrite Hlocation]; by vm_compute.
Defined.

(** A reviews page whose only review has a rating that cannot be read,
    in a strict session: [load_reviews] raises and sets nothing. *)
Lemma strict_load_is_all_or_nothing_witness :
  ∃ e,
    call (H:=test_utilities) LoadReviews 1 unrated_satou =
      Some (Raise e, {| self := self unrated_satou;
                        requests := ["http://myanimelist.net/profile/satou/reviews&p=0"] |}).
Proof.
  destruct (strict_load_is_all_or_nothing (H:=test_utilities) LoadReviews 0
              unrated_satou
              (reviews_page [test_review "anime" 1 (Raise ValueError)]))
    as (e & _ & Hcall).
  - reflexivity.
  - vm_compute. reflexivity.
  - apply (malformed_review (H:=test_utilities) _ _
             {| find_all_borderDark := [test_review "anime" 1 (Raise ValueError)];
                find_all_borderClass := [];
                find_ol := None;
                find_all_friendHolder := [] |}
             (test_review "anime" 1 (Raise ValueError)) ValueError).
    + reflexivity.
    + apply list_elem_of_here.
    + vm_compute. reflexivity.
  - exists e. exact Hcall.
Defined.

(** The friends page of a user the site does not know. *)
Lemma missing_user_raises_InvalidUserError_witness :
  call (H:=test_utilities) LoadFriends 1 missing_satou =
    Some (Raise (InvalidUserError (VUnicode "satou")),
          {| self := self missing_satou;
             requests := ["http://myanimelist.net/profile/satou/friends"] |}).
Proof.
  apply (missing_user_raises_InvalidUserError (H:=test_utilities) LoadFriends 0
           missing_satou error404_page).
  - vm_compute. reflexivity.
  - reflexivity.
Defined.

(** [parse] on satou's profile keeps the location of the sidebar. *)
Lemma page_parsers_contain_sidebar_witness :
  ∃ user_info,
    parse (H:=test_utilities) (self permissive_satou) satou_profile = Ok user_info ∧
    user_info !! "location" = Some (VUnicode "Tokyo").
Proof.
  destruct (returns_Ok (parse (H:=test_utilities) (self permissive_satou) satou_profile))
    as [user_info Hparse]; [vm_compute; reflexivity|].
  exists user_info. split; [done|].
  pose proof (page_parsers_contain_sidebar (H:=test_utilities)
                (self permissive_satou) satou_profile parse
                ltac:(apply list_elem_of_here) user_info Hparse) as Hsidebar.
  assert (match parse_sidebar (H:=test_utilities) (self permissive_satou) satou_profile
          with
          | Ok sidebar => sidebar !! "location"
          | Raise _ => None
          end = Some (VUnicode "Tokyo")) as Hlocation by (vm_compute; reflexivity).
  destruct (parse_sidebar (H:=test_utilities) (self permissive_satou) satou_profile)
    as [sidebar|e]; [|done].
  by apply Hsidebar.
Defined.

(** satou's gender is on the page. *)
Lemma parse_sidebar_gender_witness :
  ∃ user_info,
    parse_sidebar (H:=test_utilities) (self permissive_satou) satou_profile = Ok user_info ∧
    user_info !! "gender" = Some (VUnicode "Male").
Proof.
  destruct (returns_Ok (parse_sidebar (H:=test_utilities) (self permissive_satou)
                          satou_profile)) as [user_info Hparse];
    [vm_compute; reflexivity|].
  exists user_info. split; [done|].
  destruct (parse_sidebar_gender (H:=test_utilities) _ _ _ Hparse)
    as (panel & general_elt & gender & Hpanel & Hgeneral & Hgender & _ & ->).
  rewrite Hgender. simpl in Hpanel. injection Hpanel as <-.
  simpl in Hgeneral. injection Hgeneral as <-. reflexivity.
Defined.


(** Against C4 as stated: in a strict session, a rating that cannot be
    read on the second reviews page makes [load_reviews] raise after the
    attributes of page 0, reviews and sidebar, were set. *)
Lemma later_reviews_page_fails_after_set :
  suppress_parse_exceptions (session (self strict_satou)) = false ∧
  ∃ st,
    load_reviews (H:=test_utilities) 5 strict_satou = Some (Raise ValueError, st) ∧
    length (requests st) = 2%nat ∧
    rating anime_1 (attr (attrs (self st)) "reviews") = Some (VInt 9) ∧
    attr (attrs (self st)) "location" = VUnicode "Tokyo".
Proof.
  split; [reflexivity|]. eexists. split; [vm_compute; reflexivity|].
  split; [reflexivity|]. split; by vm_compute.
Qed.

(** Against C6 as stated: anime 1 is rated 9 on page 0 and 3 on page 1;
    the merged reviews rate it 3. *)
Lemma later_review_page_overwrites :
  ∃ st,
    load_reviews (H:=test_utilities) 5 permissive_satou = Some (Ok tt, st) ∧
    rating anime_1
      (VDict (parsed (self permissive_satou)
                (reviews_page [test_review "anime" 1 (Ok 9)])).2) = Some (VInt 9) ∧
    rating anime_1 (attr (attrs (self st)) "reviews") = Some (VInt 3).
Proof.
  eexists. split; [vm_compute; reflexivity|]. split; by vm_compute.
Qed.


(** * Further properties *)

(** ** Statements in [ST], continued *)

(** A run of a computation that leaves [k] leaves its entry. *)
Lemma keeps_Ok {A} k (c : P A) user_info r user_info' :
  keeps k c → c user_info = (r, user_info') → user_info' !! k = user_info !! k.
Proof. intros Hc Hrun. rewrite <-(keeps_run k c user_info Hc). by rewrite Hrun. Qed.

(** Rewrites [s' !! k] to [s !! k] across a run [c s = (r, s')] that
    leaves [k]. *)
Ltac kept Hrun :=
  match type of Hrun with
  | ?c ?s = (?r, ?s') =>
      match goal with
      | |- context [s' !! ?k] =>
          let Hk := fresh in
          assert (keeps k c) as Hk by (repeat keeps_step);
          rewrite (keeps_Ok k c s r s' Hk Hrun); clear Hk
      end
  end.

(** The state after a [try] block that did not raise is the state its
    body left. *)
Lemma try_state {S} sup (body : ST S unit) s s' :
  try_ sup body s = (Ok tt, s') → s' = (body s).2.
Proof.
  unfold try_. destruct (body s) as [[[]|e] s1]; [by intros [= <-]|].
  destruct sup; [by intros [= <-]|done].
Qed.

Lemma holds_dict_store k k' key v :
  preserves (holds_dict k) (store_in k' key v).
Proof.
  intros user_info [d Hd]. unfold store_in.
  destruct (user_info !! k') as [[]|] eqn:E; simpl; try by exists d.
  destruct (decide (k' = k)) as [->|].
  - eexists. by rewrite lookup_insert_eq.
  - exists d. by rewrite lookup_insert_ne.
Qed.

Lemma holds_list_append k k' v :
  preserves (holds_list k) (append_to k' v).
Proof.
  intros user_info [l Hl]. unfold append_to.
  destruct (user_info !! k') as [[]|] eqn:E; simpl; try by exists l.
  destruct (decide (k' = k)) as [->|].
  - eexists. by rewrite lookup_insert_eq.
  - exists l. by rewrite lookup_insert_ne.
Qed.

(** Proof search for an entry that stays a dict or a list. *)
Ltac holds_step :=
  lazy beta iota zeta;
  match goal with
  | |- preserves _ (bind _ _) => apply preserves_bind; [|intros ?]
  | |- preserves _ (try_ _ _) => apply preserves_try
  | |- preserves _ (ret _) => apply preserves_ret
  | |- preserves _ (raise _) => apply preserves_raise
  | |- preserves _ (lift _) => apply preserves_lift
  | |- preserves _ (for_ _ _) => apply preserves_for, Forall_forall; intros ? _
  | |- preserves _ (store_in _ _ _) => apply holds_dict_store
  | |- preserves _ (append_to _ _) => apply holds_list_append
  | |- preserves _ (match ?x with _ => _ end) => destruct x
  end.

Lemma assign_then (I : gmap string value → Prop) k v (c : P unit) user_info :
  I (<[k := v]> user_info) → preserves I c → I ((assign k v >> c) user_info).2.
Proof. intros Hinit Hc. unfold bind. simpl. by apply Hc. Qed.

(** ** Decimal numerals *)

Lemma all_digits_rev_app s : ∀ t,
  all_digits s = true → all_digits t = true → all_digits (String.rev_app s t) = true.
Proof.
  induction s as [|a s IH]; intros t Hs Ht; cbn [all_digits String.rev_app] in *; [done|].
  apply andb_true_iff in Hs as [Ha Hs]. apply IH; [done|].
  cbn [all_digits]. by rewrite Ha.
Qed.

Lemma rev_app_rev_app s : ∀ t,
  String.rev_app (String.rev_app s t) "" = String.rev_app t s.
Proof.
  induction s as [|a s IH]; intros t; simpl; [done|]. by rewrite IH.
Qed.

Lemma is_space_digit a :
  (48 ≤ nat_of_ascii a)%nat → (nat_of_ascii a ≤ 57)%nat → is_space a = false.
Proof.
  intros Hlo Hhi. unfold is_space.
  destruct (_ <=? 13)%nat eqn:E1; [apply Nat.leb_le in E1; lia|].
  destruct (28 <=? _)%nat eqn:E2; [|].
  - destruct (_ <=? 32)%nat eqn:E3; [apply Nat.leb_le in E3; lia|].
    destruct (_ =? 133)%nat eqn:E4; [apply Nat.eqb_eq in E4; lia|].
    destruct (_ =? 160)%nat eqn:E5; [apply Nat.eqb_eq in E5; lia|].
    by rewrite !andb_false_r.
  - apply Nat.leb_gt in E2. lia.
Qed.

Lemma lstrip_digits s : all_digits s = true → lstrip s = s.
Proof.
  destruct s as [|a s]; cbn [all_digits lstrip]; [done|].
  intros [[Hlo Hhi]%andb_true_iff _]%andb_true_iff.
  apply Nat.leb_le in Hlo, Hhi. by rewrite is_space_digit.
Qed.

Lemma has_nul_digits s : all_digits s = true → has_nul s = false.
Proof.
  induction s as [|a s IH]; cbn [all_digits has_nul]; [done|].
  intros [[Hlo Hhi]%andb_true_iff Hs]%andb_true_iff.
  apply Nat.leb_le in Hlo. rewrite (IH Hs), orb_false_r.
  apply Nat.eqb_neq. lia.
Qed.

Lemma strip_digits s : all_digits s = true → strip s = s.
Proof.
  intros Hs. unfold strip. rewrite (lstrip_digits s Hs).
  rewrite lstrip_digits by (by apply all_digits_rev_app).
  unfold String.rev. by rewrite rev_app_rev_app.
Qed.

Lemma digits_string_of_uint d : ∀ acc,
  digits (NilEmpty.string_of_uint d) (Z.of_nat acc) =
    Some (Z.of_nat (Nat.of_uint_acc d acc)).
Proof.
  induction d; intros acc; simpl; [done|..];
    match goal with
    | |- digits _ ?z = Some (Z.of_nat (Nat.of_uint_acc _ ?a)) =>
        replace z with (Z.of_nat a) by (rewrite Nat.tail_mul_spec; lia)
    end; apply IHd.
Qed.

Lemma all_digits_string_of_uint d : all_digits (NilEmpty.string_of_uint d) = true.
Proof. induction d; simpl; done. Qed.

(** [int] reads a decimal numeral back. *)
Lemma int_decimal n : int (NilZero.string_of_uint (Nat.to_uint n)) = Ok (Z.of_nat n).
Proof.
  assert (NilZero.string_of_uint (Nat.to_uint n) =
          NilEmpty.string_of_uint (Nat.to_uint n)) as ->.
  { unfold NilZero.string_of_uint. destruct (Nat.to_uint n) eqn:E; try done.
    pose proof (DecimalNat.Unsigned.of_to n) as Hn. rewrite E in Hn.
    assert (Nat.to_uint 0 = Decimal.Nil) by (simpl in Hn; by rewrite <-Hn in E).
    done. }
  unfold int. rewrite has_nul_digits by apply all_digits_string_of_uint.
  rewrite strip_digits by apply all_digits_string_of_uint.
  pose proof (digits_string_of_uint (Nat.to_uint n) 0) as Hd.
  change (Z.of_nat 0) with 0 in Hd.
  change (Nat.of_uint_acc (Nat.to_uint n) 0) with (Nat.of_uint (Nat.to_uint n)) in Hd.
  rewrite DecimalNat.Unsigned.of_to in Hd.
  pose proof (all_digits_string_of_uint (Nat.to_uint n)) as Hall.
  destruct (NilEmpty.string_of_uint (Nat.to_uint n)) as [|a s] eqn:E.
  - destruct (Nat.to_uint n) eqn:E'; try done.
    pose proof (DecimalNat.Unsigned.of_to n) as Hn. rewrite E' in Hn.
    simpl in Hn. subst n. done.
  - cbn [all_digits] in Hall.
    apply andb_true_iff in Hall as [[Hlo Hhi]%andb_true_iff _].
    apply Nat.leb_le in Hlo, Hhi.
    assert (a ≠ "+"%char ∧ a ≠ "-"%char) as [Hplus Hminus].
    { split; intros ->; vm_compute in Hlo; lia. }
    unfold unsigned.
    destruct a as [[] [] [] [] [] [] [] []]; try done; by rewrite Hd.
Qed.

(** ** The sidebar *)

Section Sidebar_facts.
Context `{Utilities}.

(** X1: a page that is not an error page and has no [user-profile]
    div makes [parse_sidebar] raise [AttributeError], in a strict and in
    a permissive session alike: the lookup of the status lists is outside
    every [try]. *)
Theorem parse_sidebar_without_user_profile self page :
  find_error404 page = false →
  find_user_profile page = None →
  parse_sidebar self page = Raise AttributeError.
Proof.
  intros Herr Hpanel. unfold parse_sidebar. rewrite Herr, Hpanel.
  by destruct (suppress_parse_exceptions (session self)).
Qed.

(** X2: in a permissive session, a sidebar with fewer than three
    [user-status] lists makes [parse_sidebar] raise [IndexError]:
    [status_elts[0]] and [status_elts[2]] are read outside every [try]. *)
Theorem parse_sidebar_few_status_lists self page panel :
  suppress_parse_exceptions (session self) = true →
  find_error404 page = false →
  find_user_profile page = Some panel →
  (length (find_all_user_status panel) < 3)%nat →
  parse_sidebar self page = Raise IndexError.
Proof.
  intros Hsup Herr Hpanel Hlen. unfold parse_sidebar.
  rewrite Hsup, Herr, Hpanel.
  do 3 run_succeeds.
  erewrite returning_bind by reflexivity.
  destruct (find_all_user_status panel) as [|general_elt status_elts] eqn:Hstatus.
  { reflexivity. }
  erewrite returning_bind by reflexivity.
  run_succeeds.
  match goal with
  | Hloop : for_ _ _ _ = (Ok ?u, _) |- _ =>
      destruct u; pose proof (general_fields_loop _ _ _ _ _ Hloop) as Hfields
  end.
  specialize (Hfields ltac:(apply (bool_decide_unpack _); by vm_compute)
                "gender" "Gender" (λ x, Ok (VUnicode x)) ltac:(set_solver)).
  destruct (truthy (field_value general_elt "Gender" (λ x, Ok (VUnicode x))))
    eqn:Htruthy;
    (erewrite returning_bind
       by (unfold bind, item; rewrite Hfields, Htruthy; reflexivity));
    destruct status_elts as [|elt1 [|stats_elt status_elts]];
    simpl in Hlen; try lia; reflexivity.
Qed.

(** X3: in a permissive session, a sidebar whose "Also Available at"
    text is not followed by a link makes [parse_sidebar] raise: the
    website is read outside every [try]. *)
Theorem parse_sidebar_website_raises self page panel e :
  suppress_parse_exceptions (session self) = true →
  find_error404 page = false →
  find_user_profile page = Some panel →
  (3 ≤ length (find_all_user_status panel))%nat →
  find_also_available panel = Some (Raise e) →
  parse_sidebar self page = Raise e.
Proof.
  intros Hsup Herr Hpanel Hlen Hweb. unfold parse_sidebar.
  rewrite Hsup, Herr, Hpanel.
  destruct (find_all_user_status panel) as [|general_elt [|elt1 [|stats_elt status_elts]]] eqn:Hstatus;
    simpl in Hlen; try lia.
  do 3 run_succeeds.
  erewrite returning_bind by reflexivity. rewrite Hstatus.
  erewrite returning_bind by reflexivity.
  run_succeeds.
  match goal with
  | Hloop : for_ _ _ _ = (Ok ?u, _) |- _ =>
      destruct u; pose proof (general_fields_loop _ _ _ _ _ Hloop) as Hfields
  end.
  specialize (Hfields ltac:(apply (bool_decide_unpack _); by vm_compute)
                "gender" "Gender" (λ x, Ok (VUnicode x)) ltac:(set_solver)).
  destruct (truthy (field_value general_elt "Gender" (λ x, Ok (VUnicode x))))
    eqn:Htruthy;
    (erewrite returning_bind
       by (unfold bind, item; rewrite Hfields, Htruthy; reflexivity));
    (erewrite returning_bind by reflexivity);
    run_succeeds; rewrite Hweb; reflexivity.
Qed.

(** X4: when [parse_sidebar] returns, last_online, birthday, location
    and join_date are always keys of the result; each is what its parser
    makes of the text next to its label in the first status list, and
    [None] when the label is absent or the text cannot be parsed. *)
Theorem parse_sidebar_general_fields self page user_info :
  parse_sidebar self page = Ok user_info →
  ∃ panel general_elt,
    find_user_profile page = Some panel ∧
    find_all_user_status panel !! 0%nat = Some general_elt ∧
    ∀ name finder parser,
      (name, finder, parser) ∈
        [ ("last_online", "Last Online", parse_profile_date);
          ("birthday", "Birthday", parse_profile_date);
          ("location", "Location", λ x, Ok (VUnicode x));
          ("join_date", "Joined", parse_profile_date) ] →
      user_info !! name =
        Some match find_span finder general_elt with
             | Some (Ok text) =>
                 match parser text with Ok parsed => parsed | Raise _ => VNone end
             | _ => VNone
             end.
Proof.
  intros (panel & general_elt & Hpanel & Hgeneral & _ & Hlast & Hbirth & Hloc & Hjoin)
    %parse_sidebar_general.
  exists panel, general_elt. split; [done|]. split; [done|].
  intros name finder parser Hin. rewrite !elem_of_cons, elem_of_nil in Hin.
  by destruct Hin as [[= -> -> ->]|[[= -> -> ->]|[[= -> -> ->]|[[= -> -> ->]|[]]]]].
Qed.

(** The loop over the counts of the third status list. *)
Lemma count_fields_loop suppress (stats_elt : StatusElt) (fields : list (string * string)) :
  ∀ user_info user_info',
  for_ fields (λ '(field_name, field_finder),
      let field_elt := find_span field_finder stats_elt in
      try_ suppress (
        let! next_sibling_text := lift (not_none field_elt) in
        let! text := lift next_sibling_text in
        let! count := lift (int (remove_char "," text)) in
        assign field_name (VInt count))) user_info = (Ok tt, user_info') →
  NoDup fields.*1 →
  ∀ name finder, (name, finder) ∈ fields →
    user_info' !! name =
      match count_value stats_elt finder with
      | Some count => Some (VInt count)
      | None => user_info !! name
      end.
Proof.
  induction fields as [|[n f] fields IH];
    intros user_info user_info' Hrun Hnodup name finder Hin.
  - by apply elem_of_nil in Hin.
  - simpl in Hrun. apply bind_Ok in Hrun as ([] & s1 & Hhead & Hrest).
    simpl in Hnodup. apply NoDup_cons in Hnodup as [Hn Hnodup].
    apply elem_of_cons in Hin as [[= -> ->]|Hin].
    + assert (s1 !! n = match count_value stats_elt f with
                        | Some count => Some (VInt count)
                        | None => user_info !! n
                        end) as <-.
      { revert Hhead. unfold count_value, bind, assign, modify, try_, lift, not_none.
        destruct (find_span f stats_elt) as [[text|e]|]; simpl.
        - destruct (int (remove_char "," text)); simpl; destruct suppress;
            intros [= <-]; by rewrite ?lookup_insert_eq.
        - destruct suppress; by intros [= <-].
        - destruct suppress; by intros [= <-]. }
      eapply keeps_Ok; [|exact Hrest].
      intros x. apply preserves_for, Forall_forall. intros [n' f'] Hin'.
      assert (n' ≠ n).
      { intros ->. apply Hn. apply list_elem_of_fmap. by exists (n, f'). }
      repeat keeps_step.
    + rewrite (IH _ _ Hrest Hnodup _ _ Hin).
      destruct (count_value stats_elt finder); [done|].
      eapply keeps_Ok; [|exact Hhead].
      assert (n ≠ name).
      { intros ->. apply Hn. apply list_elem_of_fmap. by exists (name, finder). }
      repeat keeps_step.
Qed.

(** What the last statements of [parse_sidebar] leave in the mapping. *)
Lemma parse_sidebar_tail self page user_info :
  parse_sidebar self page = Ok user_info →
  ∃ panel stats_elt,
    find_user_profile page = Some panel ∧
    find_all_user_status panel !! 2%nat = Some stats_elt ∧
    (∀ name finder,
       (name, finder) ∈
         [ ("num_forum_posts", "Forum Posts"); ("num_reviews", "Reviews");
           ("num_recommendations", "Recommendations");
           ("num_blog_posts", "Blog Posts"); ("num_clubs", "Clubs") ] →
       user_info !! name = VInt <$> count_value stats_elt finder) ∧
    user_info !! "website" =
      match find_also_available panel with
      | Some (Ok text) => Some (VUnicode text)
      | _ => None
      end ∧
    ∀ e, find_also_available panel ≠ Some (Raise e).
Proof.
  unfold parse_sidebar. intros Hr%returning_Ok.
  apply bind_Ok in Hr as ([] & s1 & H1 & Hr).
  apply bind_Ok in Hr as ([] & s2 & H2 & Hr).
  apply bind_Ok in Hr as ([] & s3 & H3 & Hr).
  apply bind_Ok in Hr as (panel & s4 & [Hpanel ->]%lift_Ok & Hr).
  apply bind_Ok in Hr as (general_elt & s5 & [Hgen ->]%lift_Ok & Hr).
  apply bind_Ok in Hr as ([] & s6 & H6 & Hr).
  apply bind_Ok in Hr as ([] & s7 & H7 & Hr).
  apply bind_Ok in Hr as (stats_elt & s8 & [Hstats ->]%lift_Ok & Hr).
  apply bind_Ok in Hr as ([] & s9 & Hloop & Hweb).
  assert (∀ k, k ∈ ["num_forum_posts"; "num_reviews"; "num_recommendations";
                    "num_blog_posts"; "num_clubs"; "website"] →
            s7 !! k = None) as Hfresh.
  { intros k Hk. rewrite !elem_of_cons, elem_of_nil in Hk.
    destruct Hk as [->|[->|[->|[->|[->|[->|[]]]]]]];
      kept H7; kept H6; kept H3; kept H2; kept H1; done. }
  exists panel, stats_elt.
  split; [by destruct (find_user_profile page) as [?|]; simplify_eq/=|].
  split; [unfold index in Hstats; by destruct (_ !! 2%nat); simplify_eq/=|].
  pose proof (count_fields_loop _ _ _ _ _ Hloop
                ltac:(apply (bool_decide_unpack _); by vm_compute)) as Hcounts.
  split; [|split].
  - intros name finder Hin. rewrite !elem_of_cons, elem_of_nil in Hin.
    destruct Hin as [[= -> ->]|[[= -> ->]|[[= -> ->]|[[= -> ->]|[[= -> ->]|[]]]]]];
      kept Hweb;
      match goal with
      | |- _ !! ?n = _ <$> count_value _ ?f =>
          rewrite (Hcounts n f), Hfresh by set_solver
      end;
      by destruct (count_value stats_elt _).
  - assert (s9 !! "website" = None) as Hnone.
    { kept Hloop. apply Hfresh. set_solver. }
    revert Hweb. unfold bind, lift, assign, modify.
    destruct (find_also_available panel) as [[text|e]|]; simpl.
    + intros [= <-]. by rewrite lookup_insert_eq.
    + done.
    + by intros [= <-].
  - intros e He. revert Hweb. rewrite He. done.
Qed.

(** X5: when [parse_sidebar] returns, each of the five counts
    (num_forum_posts, num_reviews, num_recommendations, num_blog_posts,
    num_clubs) whose text next to its label in the third status list,
    with the commas removed, [int] reads as a number is that number; a
    count whose label is absent, or whose text cannot be taken from the
    page, is no key of the result; and a count is never [None]: it is an
    integer or it is no key. *)
Theorem parse_sidebar_count_fields self page user_info :
  parse_sidebar self page = Ok user_info →
  ∃ panel stats_elt,
    find_user_profile page = Some panel ∧
    find_all_user_status panel !! 2%nat = Some stats_elt ∧
    ∀ name finder,
      (name, finder) ∈
        [ ("num_forum_posts", "Forum Posts"); ("num_reviews", "Reviews");
          ("num_recommendations", "Recommendations");
          ("num_blog_posts", "Blog Posts"); ("num_clubs", "Clubs") ] →
      (∀ text count,
         find_span finder stats_elt = Some (Ok text) →
         int (remove_char "," text) = Ok count →
         user_info !! name = Some (VInt count)) ∧
      (find_span finder stats_elt = None → user_info !! name = None) ∧
      (∀ e, find_span finder stats_elt = Some (Raise e) → user_info !! name = None) ∧
      (∀ v, user_info !! name = Some v → ∃ count, v = VInt count).
Proof.
  intros (panel & stats_elt & Hpanel & Hstats & Hcounts & _)%parse_sidebar_tail.
  exists panel, stats_elt. split; [done|]. split; [done|].
  intros name finder Hin. rewrite (Hcounts _ _ Hin). unfold count_value.
  split; [|split; [|split]].
  - intros text count -> ->. done.
  - intros ->. done.
  - intros e ->. done.
  - destruct (find_span finder stats_elt) as [[text|]|]; try done.
    destruct (int _) as [count|]; [|done]. intros v [= <-]. by exists count.
Qed.

(** X6: a count written with thousands separators is read as the
    number: when the text next to the label, with its commas removed, is
    the decimal numeral of [n], the count is [n]. *)
Theorem sidebar_count_with_separators self page user_info panel stats_elt
    name finder text n :
  parse_sidebar self page = Ok user_info →
  find_user_profile page = Some panel →
  find_all_user_status panel !! 2%nat = Some stats_elt →
  (name, finder) ∈
    [ ("num_forum_posts", "Forum Posts"); ("num_reviews", "Reviews");
      ("num_recommendations", "Recommendations");
      ("num_blog_posts", "Blog Posts"); ("num_clubs", "Clubs") ] →
  find_span finder stats_elt = Some (Ok text) →
  remove_char "," text = NilZero.string_of_uint (Nat.to_uint n) →
  user_info !! name = Some (VInt (Z.of_nat n)).
Proof.
  intros (panel' & stats_elt' & Hpanel' & Hstats' & Hcounts & _)%parse_sidebar_tail
    Hpanel Hstats Hin Hspan Htext.
  assert (panel' = panel) as -> by congruence.
  assert (stats_elt' = stats_elt) as -> by congruence.
  rewrite (Hcounts _ _ Hin). unfold count_value.
  by rewrite Hspan, Htext, int_decimal.
Qed.

(** X7: when [parse_sidebar] returns, website is the text of the link
    after "Also Available at", and no key of the result when the sidebar
    has no such text. *)
Theorem parse_sidebar_website self page user_info :
  parse_sidebar self page = Ok user_info →
  ∃ panel,
    find_user_profile page = Some panel ∧
    (∀ e, find_also_available panel ≠ Some (Raise e)) ∧
    user_info !! "website" =
      match find_also_available panel with
      | Some (Ok text) => Some (VUnicode text)
      | _ => None
      end.
Proof.
  intros (panel & stats_elt & Hpanel & _ & _ & Hwebsite & Hlink)%parse_sidebar_tail.
  by exists panel.
Qed.

End Sidebar_facts.

(** ** The page parsers *)

Section Page_facts.
Context `{Utilities}.

(** A parser of a list page that returns has found the sidebar and the
    second column, and returns what the statements of its [try] block
    left in the mapping. *)
Lemma list_page_state self page user_info section :
  list_page self page section = Ok user_info →
  ∃ sidebar second_col,
    parse_sidebar self page = Ok sidebar ∧
    find_second_col page = Ok second_col ∧
    user_info = (section second_col sidebar).2.
Proof.
  unfold list_page.
  destruct (parse_sidebar self page) as [sidebar|e]; [|done].
  destruct (find_second_col page) as [second_col|e]; [|done].
  intros Hr%returning_Ok%try_state. eauto.
Qed.

(** X8: in a permissive session [parse] returns exactly when
    [parse_sidebar] does, and [parse_reviews], [parse_recommendations],
    [parse_clubs] and [parse_friends] return exactly when [parse_sidebar]
    does and the page has its second column: nothing else on the page
    can make them raise. *)
Theorem permissive_parsers_return self page :
  suppress_parse_exceptions (session self) = true →
  ((∃ user_info, parse self page = Ok user_info) ↔
     ∃ sidebar, parse_sidebar self page = Ok sidebar) ∧
  ∀ parser,
    parser ∈ [parse_reviews; parse_recommendations; parse_clubs; parse_friends] →
    ((∃ user_info, parser self page = Ok user_info) ↔
       (∃ sidebar, parse_sidebar self page = Ok sidebar) ∧
       ∃ second_col, find_second_col page = Ok second_col).
Proof.
  intros Hsup. split.
  - split.
    + intros [user_info Hr].
      destruct (parse_sidebar self page) as [sidebar|e] eqn:Hsidebar; [eauto|].
      rewrite (page_parser_sidebar_raises _ _ parse e) in Hr; [done|set_solver|done].
    + intros [sidebar Hsidebar]. by eapply parse_returns.
  - intros parser Hparser. rewrite !elem_of_cons, elem_of_nil in Hparser. split.
    + intros [user_info Hr].
      destruct Hparser as [->|[->|[->|[->|[]]]]];
        destruct (list_page_state _ _ _ _ Hr) as (? & ? & ? & ? & _); eauto.
    + intros [[sidebar Hsidebar] [second_col Hcol]].
      destruct Hparser as [->|[->|[->|[->|[]]]]];
        unfold parse_reviews, parse_recommendations, parse_clubs, parse_friends,
          list_page;
        rewrite Hsidebar, Hcol, Hsup;
        apply succeeds_returning, succeeds_try.
Qed.

(** X9: a page that a parser accepts in a strict session gives the
    same result in a permissive session. *)
Theorem strict_result_is_permissive_result self page user_info parser :
  parser ∈ [parse_sidebar; parse; parse_reviews; parse_recommendations;
            parse_clubs; parse_friends] →
  suppress_parse_exceptions (session self) = false →
  parser self page = Ok user_info →
  parser (permissive self) page = Ok user_info.
Proof.
  intros Hparser Hstrict Hr. apply elem_of_cons in Hparser as [->|Hparser].
  - by apply parse_sidebar_permissive.
  - by apply page_parser_permissive.
Qed.

(** X10: the entry a list parser returns is of the type it was
    initialised with: reviews is a dict, with one entry per media,
    clubs is a list, friends is a dict. *)
Theorem list_parsers_set_their_entry self page user_info :
  (parse_reviews self page = Ok user_info →
     ∃ d, user_info !! "reviews" = Some (VDict d) ∧ unique_keys d) ∧
  (parse_clubs self page = Ok user_info →
     ∃ l, user_info !! "clubs" = Some (VList l)) ∧
  (parse_friends self page = Ok user_info →
     ∃ d, user_info !! "friends" = Some (VDict d)).
Proof.
  split; [|split].
  - intros Hr.
    destruct (list_page_state _ _ _ _ Hr) as (sidebar & second_col & _ & _ & Hm).
    assert (holds_dict "reviews" user_info) as [d Hd].
    { rewrite Hm. lazy beta. apply assign_then.
      - eexists. by rewrite lookup_insert_eq.
      - repeat holds_step. }
    exists d. split; [done|].
    eapply parse_reviews_unique_keys; [exact Hr|].
    unfold reviews_of. by rewrite Hd.
  - intros Hr.
    destruct (list_page_state _ _ _ _ Hr) as (sidebar & second_col & _ & _ & Hm).
    rewrite Hm. lazy beta. apply (assign_then (holds_list "clubs")).
    + eexists. by rewrite lookup_insert_eq.
    + repeat holds_step.
  - intros Hr.
    destruct (list_page_state _ _ _ _ Hr) as (sidebar & second_col & _ & _ & Hm).
    rewrite Hm. lazy beta. apply (assign_then (holds_dict "friends")).
    + eexists. by rewrite lookup_insert_eq.
    + repeat holds_step.
Qed.

(** The loop over the rows of a reviews page. *)
Lemma for_reviews_state self (rows : list ReviewRow) : ∀ user_info d,
  user_info !! "reviews" = Some (VDict d) →
  (for_ rows (λ row,
      lift (rv_divs row) >>
      let! date_text := lift (rv_date row) in
      let! date := lift (parse_profile_date date_text) in
      let! '(name, id, text) := lift (rv_media_link row) in
      let! media := lift (linked (session self) name (IdKey id) "title" text) in
      let! '(people_helped, people_total) := lift (rv_helpful row) in
      let! '(media_consumed, media_total) := lift (rv_consumption row) in
      let! rating := lift (rv_rating row) in
      let! review_text := lift (rv_text row) in
      let review_info :=
        dict_set (VUnicode "text") (VUnicode review_text)
          (dict_set (VUnicode "rating") (VInt rating)
            (dict_set (VUnicode "media_total") (int_or_none media_total)
              (dict_set (VUnicode "media_consumed") (VInt media_consumed)
                (dict_set (VUnicode "people_total") (VInt people_total)
                  (dict_set (VUnicode "people_helped") (VInt people_helped)
                    (dict_set (VUnicode "date") date [])))))) in
      store_in "reviews" media (VDict review_info)) user_info).2 =
  <["reviews" :=
      VDict (foldl (λ d '(k, v), dict_set k v d) d
               (before_first_raise (review_entry self <$> rows)))]> user_info.
Proof.
  induction rows as [|row rows IH]; intros user_info d Hd.
  - simpl. by rewrite insert_id.
  - cbn [for_ fmap list_fmap]. unfold bind at 1.
    match goal with
    | |- (match ?body user_info with _ => _ end).2 = _ =>
        assert (body user_info =
                match review_entry self row with
                | Ok (media, review_info) =>
                    (Ok tt, <["reviews" := VDict (dict_set media review_info d)]> user_info)
                | Raise e => (Raise e, user_info)
                end) as ->
    end.
    { unfold review_entry, evaluate, bind, lift, ret, store_in.
      destruct (rv_divs row) as [[]|]; [|done].
      destruct (rv_date row); [|done].
      destruct (parse_profile_date _); [|done].
      destruct (rv_media_link row) as [[[??]?]|]; [|done].
      destruct (linked _ _ _ _ _); [|done].
      destruct (rv_helpful row) as [[??]|]; [|done].
      destruct (rv_consumption row) as [[??]|]; [|done].
      destruct (rv_rating row); [|done].
      destruct (rv_text row); [|done].
      simpl. by rewrite Hd. }
    destruct (review_entry self row) as [[media review_info]|e]; simpl.
    + rewrite (IH _ (dict_set media review_info d)) by (by rewrite lookup_insert_eq).
      by rewrite insert_insert_eq.
    + by rewrite insert_id.
Qed.

(** X11: the reviews [parse_reviews] returns are those of the rows
    before the first row that cannot be read, stored in page order; the
    rows after it are not looked at, in a permissive session either (the
    [try] is around the loop, not inside it). *)
Theorem parse_reviews_stops_at_first_bad_row self page user_info second_col :
  parse_reviews self page = Ok user_info →
  find_second_col page = Ok second_col →
  user_info !! "reviews" =
    Some (VDict (foldl (λ d '(media, review_info), dict_set media review_info d) []
                   (before_first_raise
                      (review_entry self <$> find_all_borderDark second_col)))).
Proof.
  intros Hr Hcol.
  destruct (list_page_state _ _ _ _ Hr) as (sidebar & second_col' & _ & Hcol' & Hm).
  assert (second_col' = second_col) as -> by congruence.
  pose proof (for_reviews_state self (find_all_borderDark second_col)
                (<["reviews" := VDict []]> sidebar) []
                ltac:(by rewrite lookup_insert_eq)) as Hloop.
  rewrite Hm. etransitivity; [exact (f_equal (.!! "reviews") Hloop)|].
  by rewrite lookup_insert_eq.
Qed.

(** X12: [parse_recommendations] skips the first [borderClass] div of
    the second column ([recommendations[1:]]): with one div the
    recommendations are the empty dict; with none, recommendations is no
    key of the result; with more, it is a dict. *)
Theorem parse_recommendations_skips_first_div self page user_info second_col :
  parse_recommendations self page = Ok user_info →
  find_second_col page = Ok second_col →
  match find_all_borderClass second_col with
  | [] => user_info !! "recommendations" = None
  | [_] => user_info !! "recommendations" = Some (VDict [])
  | _ => ∃ d, user_info !! "recommendations" = Some (VDict d)
  end.
Proof.
  intros Hr Hcol.
  destruct (list_page_state _ _ _ _ Hr) as (sidebar & second_col' & Hsidebar & Hcol' & Hm).
  assert (second_col' = second_col) as -> by congruence.
  rewrite Hm. lazy beta zeta.
  destruct (find_all_borderClass second_col) as [|first [|row rows]].
  - simpl. apply (parse_sidebar_sets _ _ _ _ Hsidebar).
    apply (bool_decide_unpack _). by vm_compute.
  - simpl. by rewrite lookup_insert_eq.
  - apply (assign_then (holds_dict "recommendations")).
    + eexists. by rewrite lookup_insert_eq.
    + repeat holds_step.
Qed.

(** X13: when the session cannot make a user of the first friend's
    name, [parse_friends] raises that exception in a strict session and
    returns the sidebar with an empty friends dict in a permissive one. *)
Theorem parse_friends_suppresses_friend_error self page sidebar second_col row rows name e :
  parse_sidebar self page = Ok sidebar →
  find_second_col page = Ok second_col →
  find_all_friendHolder second_col = row :: rows →
  fr_friend_link row = Ok name →
  entity (session self) "user" (NameKey name) = Raise e →
  parse_friends self page =
    if suppress_parse_exceptions (session self)
    then Ok (<["friends" := VDict []]> sidebar)
    else Raise e.
Proof.
  intros Hsidebar Hcol Hfriends Hlink Hentity.
  unfold parse_friends, list_page. rewrite Hsidebar, Hcol.
  unfold returning, try_, bind at 1. simpl assign at 1. lazy beta iota zeta.
  rewrite Hfriends. cbn [for_]. unfold bind, lift. rewrite Hlink, Hentity.
  by destruct (suppress_parse_exceptions (session self)).
Qed.

(** What a statistics block leaves in the mapping. *)
Lemma stats_block_state self stats_tag field_name find_stats user_info user_info' :
  stats_block self stats_tag field_name find_stats user_info = (Ok tt, user_info') →
  match stats_tag with
  | None => user_info' = user_info
  | Some tag =>
      ∃ d, user_info' !! field_name = Some (VDict d) ∧
           (find_stats tag = None → d = [])
  end.
Proof.
  unfold stats_block. intros Hr%try_state. rewrite Hr.
  destruct stats_tag as [tag|]; [|done].
  unfold bind at 1. simpl lift at 1. lazy beta iota.
  split_and?.
  assert (holds_dict field_name
    ((assign field_name (VDict []) >>
      (let! header := lift (not_none (find_stats tag))
       in let! days := lift (find_days header)
          in store_in field_name (VStr "Days") (VFloat days) >>
             (let! mean_score := lift (find_mean_score header)
              in store_in field_name (VStr "Mean Score") (VFloat mean_score) >>
                 (let! table := lift (index (find_all_ul header) 0)
                  in for_ table
                       (λ metric,
                          let! '(name, count) := lift (metric_link metric)
                          in store_in field_name (VUnicode name) (VInt count)) >>
                     (let! table0 := lift (index (find_all_ul header) 1)
                      in for_ table0
                           (λ metric,
                              let! '(name, count) := lift (metric_parts metric)
                              in store_in field_name (VUnicode name) (VInt count)))))))
       user_info).2) as [d Hd].
  { apply assign_then.
    - eexists. by rewrite lookup_insert_eq.
    - repeat holds_step. }
  exists d. split; [exact Hd|].
  intros Hnone. revert Hd. rewrite Hnone. simpl. rewrite lookup_insert_eq.
  by intros [= <-].
Qed.

(** X14: when [parse] returns, anime_stats and manga_stats are both
    absent from the result if the page has no statistics section; if it
    has one, each is a dict, empty when its block is missing. *)
Theorem parse_stats_entries self page user_info :
  parse self page = Ok user_info →
  match find_statistics page with
  | None =>
      user_info !! "anime_stats" = None ∧ user_info !! "manga_stats" = None
  | Some tag =>
      (∃ d, user_info !! "anime_stats" = Some (VDict d) ∧
            (find_stats_anime tag = None → d = [])) ∧
      (∃ d, user_info !! "manga_stats" = Some (VDict d) ∧
            (find_stats_manga tag = None → d = []))
  end.
Proof.
  intros Hr. destruct (find_statistics page) as [tag|] eqn:Hstats.
  2:{ split; apply (parse_without_statistics _ _ _ _ Hstats Hr); set_solver. }
  unfold parse in Hr.
  destruct (parse_sidebar self page) as [sidebar|e] eqn:Hsidebar; [|done].
  apply returning_Ok in Hr. rewrite Hstats in Hr.
  apply bind_Ok in Hr as ([] & s1 & _ & Hr).
  apply bind_Ok in Hr as ([] & s2 & _ & Hr).
  apply bind_Ok in Hr as ([] & s3 & _ & Hr).
  apply bind_Ok in Hr as ([] & s4 & Hanime & Hr).
  apply bind_Ok in Hr as ([] & s5 & Hmanga & Habout).
  apply stats_block_state in Hanime as (da & Hda & Hea).
  pose proof Hmanga as Hmanga'.
  apply stats_block_state in Hmanga' as (dm & Hdm & Hem).
  split.
  - exists da. split; [|done]. kept Habout.
    unfold stats_block in Hmanga. by kept Hmanga.
  - exists dm. split; [|done]. by kept Habout.
Qed.

(** X15: when [parse] returns, about is the empty string if the page
    has no about section, and no favorite_* key is in the result if the
    page has no favorites container. *)
Theorem parse_about_and_favorites self page user_info :
  parse self page = Ok user_info →
  (find_profile_about_user page = None → user_info !! "about" = Some (VUnicode "")) ∧
  (find_user_favorites page = None →
     ∀ k, k ∈ ["favorite_anime"; "favorite_manga"; "favorite_characters";
               "favorite_people"] → user_info !! k = None).
Proof.
  intros Hr. unfold parse in Hr.
  destruct (parse_sidebar self page) as [sidebar|e] eqn:Hsidebar; [|done].
  split.
  - intros Habout. apply returning_Ok in Hr. rewrite Habout in Hr.
    apply bind_Ok in Hr as ([] & s1 & _ & Hr).
    apply bind_Ok in Hr as ([] & s2 & _ & Hr).
    apply bind_Ok in Hr as ([] & s3 & _ & Hr).
    apply bind_Ok in Hr as ([] & s4 & _ & Hr).
    apply bind_Ok in Hr as ([] & s5 & _ & Hr).
    apply try_state in Hr as ->. simpl. by rewrite lookup_insert_eq.
  - intros Hfav k Hk. rewrite Hfav in Hr.
    eapply (keeps_returning k) in Hr.
    + rewrite Hr. apply (parse_sidebar_sets _ _ _ _ Hsidebar).
      rewrite !elem_of_cons, elem_of_nil in Hk. apply (bool_decide_unpack _).
      by destruct Hk as [->|[->|[->|[->|[]]]]]; vm_compute.
    + unfold stats_block. rewrite !elem_of_cons, elem_of_nil in Hk.
      destruct Hk as [->|[->|[->|[->|[]]]]]; repeat keeps_step.
Qed.

End Page_facts.

(** ** The loaders, continued *)

Section Load_facts.
Context `{Utilities}.

(** The parsers read the session and the name of the user only. *)
Lemma page_parser_user self self' page parser :
  parser ∈ [parse; parse_reviews; parse_recommendations; parse_clubs; parse_friends] →
  session self' = session self →
  username self' = username self →
  parser self' page = parser self page.
Proof.
  intros Hparser. destruct self as [s u a], self' as [s' u' a']. simpl.
  intros -> ->. rewrite !elem_of_cons, elem_of_nil in Hparser.
  by destruct Hparser as [->|[->|[->|[->|[->|[]]]]]].
Qed.

Lemma reviews_url_user self self' page :
  username self' = username self → reviews_url self' page = reviews_url self page.
Proof. intros Hu. unfold reviews_url, profile_url. by rewrite Hu. Qed.

Lemma collect_reviews_never_stops st reviews_page parse_result reviews fuel :
  (∀ served page,
     get (session (self st)) served (reviews_url (self st) page) = Ok reviews_page) →
  parse_reviews (self st) reviews_page = Ok parse_result →
  reviews_of parse_result = Ok reviews →
  reviews ≠ [] →
  ∀ page review_collection st',
    session (self st') = session (self st) →
    username (self st') = username (self st) →
    collect_reviews fuel page review_collection st' = None.
Proof.
  intros Hget Hparse Hreviews Hne.
  induction fuel as [|fuel IH]; intros page review_collection st' Hs Hu; [done|].
  simpl. unfold bind, http_get, lift. cbn [self requests].
  rewrite Hs, (reviews_url_user (self st) (self st')), Hget by done.
  rewrite (page_parser_user (self st) (self st') _ parse_reviews), Hparse
    by (done || set_solver).
  destruct (page =? 0)%nat; simpl; rewrite Hreviews;
    (destruct reviews; [done|]); simpl; by apply IH.
Qed.

(** X16: the loop of [load_reviews] has no bound of its own: on a site
    that gives a page with a review for every page number it never
    finishes, whatever the fuel, and neither does a read of reviews
    that are [None]; reviews that are set are returned, and reviews that
    were never assigned raise [AttributeError]. *)
Theorem load_reviews_never_stops st reviews_page parse_result reviews :
  (∀ served page,
     get (session (self st)) served (reviews_url (self st) page) = Ok reviews_page) →
  parse_reviews (self st) reviews_page = Ok parse_result →
  reviews_of parse_result = Ok reviews →
  reviews ≠ [] →
  ∀ fuel, load_reviews fuel st = None ∧ read fuel "reviews" st =
    match attrs (self st) !! "reviews" with
    | None => Some (Raise AttributeError, st)
    | Some VNone => None
    | Some cached => Some (Ok cached, st)
    end.
Proof.
  intros Hget Hparse Hreviews Hne fuel.
  assert (load_reviews fuel st = None) as Hload.
  { unfold load_reviews.
    by rewrite (collect_reviews_never_stops st _ _ _ fuel Hget Hparse Hreviews Hne). }
  split; [done|]. unfold read, getattr. simpl. rewrite Hload.
  by destruct (attrs (self st) !! "reviews") as [[]|].
Qed.

(** X17: of the pages [load_reviews] fetches, only the first one
    decides the attributes other than reviews: after the load each is
    what the parser made of it on page 0, or unchanged when page 0 has no
    such key. *)
Theorem load_reviews_sets_first_page_only st pages last fuel :
  serves_reviews (self st) (requests st) 0 pages last →
  (length pages < fuel)%nat →
  ∃ st',
    load_reviews fuel st = Some (Ok tt, st') ∧
    ∀ k, k ≠ "reviews" →
      attr (attrs (self st')) k =
        match first_result pages last !! k with
        | Some v => v
        | None => attr (attrs (self st)) k
        end.
Proof.
  intros Hserves Hfuel.
  destruct (collect_reviews_serves pages fuel 0 [] st last Hserves Hfuel)
    as (st1 & Hrun & _ & _ & _ & Hattrs).
  eexists. split.
  - unfold load_reviews. rewrite Hrun. reflexivity.
  - intros k Hk. simpl. rewrite attr_set_None by (by rewrite lookup_singleton_ne).
    rewrite Hattrs. simpl.
    destruct (first_result pages last !! k) as [v|] eqn:Hv.
    + by apply attr_set_Some.
    + by apply attr_set_None.
Qed.

(** From page 1 on, the loop of [load_reviews] sets no attribute. *)
Lemma collect_reviews_self fuel : ∀ page review_collection st r st',
  page ≠ 0%nat →
  collect_reviews fuel page review_collection st = Some (r, st') →
  self st' = self st.
Proof.
  induction fuel as [|fuel IH]; intros page review_collection st r st' Hpage; [done|].
  simpl. unfold bind, http_get, lift. cbn [self requests].
  destruct (get _ _ _) as [doc|e]; [|by intros [= <- <-]].
  destruct (parse_reviews (self st) doc) as [parse_result|e]; [|by intros [= <- <-]].
  destruct (page =? 0)%nat eqn:E; [apply Nat.eqb_eq in E; done|].
  simpl. destruct (reviews_of parse_result) as [reviews|e]; [|by intros [= <- <-]].
  destruct (length reviews =? 0)%nat; [by intros [= <- <-]|].
  intros Hrun. by apply IH in Hrun.
Qed.

(** A loader that returns has set what its parser made of its first
    page, and reviews at most besides. *)
Lemma call_Ok func fuel st st' :
  call func fuel st = Some (Ok tt, st') →
  ∃ page user_info extra,
    parser_of func (self st) page = Ok user_info ∧
    attrs (self st') = set extra (set user_info (attrs (self st))) ∧
    ∀ k, k ≠ "reviews" → extra !! k = None.
Proof.
  assert (∀ url, load_page url (parser_of func) st = (Ok tt, st') →
    ∃ page user_info extra,
      parser_of func (self st) page = Ok user_info ∧
      attrs (self st') = set extra (set user_info (attrs (self st))) ∧
      ∀ k, k ≠ "reviews" → extra !! k = None) as Hpage.
  { intros url. unfold load_page, bind, http_get, lift, self_set, modify. simpl.
    destruct (get _ _ _) as [page|]; [|done]. simpl.
    destruct (parser_of func (self st) page) as [user_info|] eqn:Hparse; [|done].
    intros [= <-]. exists page, user_info, ∅. split; [done|]. split; [|done].
    simpl. unfold set. by rewrite (left_id_L ∅ (∪)). }
  destruct func; simpl; try (intros [= Hrun]; by eapply Hpage).
  unfold load_reviews. destruct fuel as [|fuel]; [done|]. simpl.
  unfold bind, http_get, lift. cbn [self requests].
  destruct (get _ _ _) as [page|]; [|done].
  destruct (parse_reviews (self st) page) as [user_info|] eqn:Hparse; [|done].
  simpl. destruct (reviews_of user_info) as [reviews|]; [|done].
  destruct (length reviews =? 0)%nat.
  - intros [= <-]. exists page, user_info, {["reviews" := VDict (merge [])]}.
    split; [done|]. split; [done|]. intros k Hk. by rewrite lookup_singleton_ne.
  - destruct (collect_reviews fuel 1 _ _) as [[[coll|e] st1]|] eqn:Hrun; [|done..].
    intros [= <-]. apply collect_reviews_self in Hrun as ->; [|done].
    exists page, user_info, {["reviews" := VDict (merge coll)]}.
    split; [done|]. split; [done|]. intros k Hk. by rewrite lookup_singleton_ne.
Qed.






(** X18: after any loader has returned, the gender is set to a
    non-empty value, and reading it makes no further request. *)
Theorem any_load_caches_gender func fuel st st' :
  call func fuel st = Some (Ok tt, st') →
  ∃ gender,
    attr (attrs (self st')) "gender" = gender ∧
    truthy gender = true ∧
    ∀ fuel', read fuel' "gender" st' = Some (Ok gender, st').
Proof.
  intros (page & user_info & extra & Hparse & Hattrs & Hextra)%call_Ok.
  destruct (parse_sidebar (self st) page) as [sidebar|e] eqn:Hsidebar.
  2:{ by rewrite (page_parser_sidebar_raises _ _ _ e (parser_of_elem func)) in Hparse. }
  destruct (parse_sidebar_general _ _ _ Hsidebar)
    as (panel & general_elt & _ & _ & Hgender & _).
  assert (attr (attrs (self st')) "gender" = sidebar_gender general_elt) as Hattr.
  { rewrite Hattrs, attr_set_None by (by apply Hextra).
    apply attr_set_Some.
    rewrite (page_parser_keeps _ _ _ _ "gender" _ (parser_of_elem func) Hsidebar Hparse);
      [done|].
    apply (bool_decide_unpack _). by vm_compute. }
  exists (sidebar_gender general_elt). split; [done|].
  split; [apply truthy_sidebar_gender|].
  assert (attrs (self st') !! "gender" = Some (sidebar_gender general_elt)) as Hlookup.
  { rewrite Hattrs. unfold set.
    rewrite lookup_union_r by (by apply Hextra).
    apply lookup_union_Some_l.
    rewrite (page_parser_keeps _ _ _ _ "gender" _ (parser_of_elem func) Hsidebar Hparse);
      [done|].
    apply (bool_decide_unpack _). by vm_compute. }
  intros fuel'. apply read_cached; [done|done|].
  pose proof (truthy_sidebar_gender general_elt) as Htruthy.
  by destruct (sidebar_gender general_elt).
Qed.

End Load_facts.

(** ** Looking up a username *)

Lemma prefix_apostrophe a rest old :
  Ascii.eqb a "'" = false → String.prefix (String "'" old) (String a rest) = false.
Proof.
  intros Ha. cbn [String.prefix]. destruct (ascii_dec "'" a) as [<-|]; [|done].
  by rewrite Ascii.eqb_refl in Ha.
Qed.

Lemma contains_marker name : contains "'s Comments" (name +:+ "'s Comments") = true.
Proof.
  induction name as [|a name IH]; [done|].
  change (String a name +:+ "'s Comments") with (String a (name +:+ "'s Comments")).
  cbn [contains]. rewrite IH. apply orb_true_r.
Qed.

Lemma remove_marker name :
  no_apostrophe name = true →
  remove_all "'s Comments" 0 (name +:+ "'s Comments") = name.
Proof.
  induction name as [|a name IH]; [done|].
  cbn [no_apostrophe]. intros [Ha Hname]%andb_true_iff.
  apply negb_true_iff in Ha.
  change (String a name +:+ "'s Comments") with (String a (name +:+ "'s Comments")).
  cbn [remove_all]. rewrite (prefix_apostrophe _ _ _ Ha). by rewrite IH.
Qed.

(** X19: [find_username_from_user_id] reads the name back from the
    heading of the comments page: when the [h1] of the page for the id
    is the name followed by "'s Comments", and the name has no
    apostrophe, the name is returned. *)
Theorem find_username_reads_heading find_h1 user_id name :
  find_h1 ("http://myanimelist.net/comments.php?id=" ++
           NilZero.string_of_int (Z.to_int user_id)) =
    Ok (Some (name +:+ "'s Comments")) →
  no_apostrophe name = true →
  find_username_from_user_id find_h1 user_id = Ok name.
Proof.
  intros Hget Hname. unfold find_username_from_user_id.
  change ("http://myanimelist.net/comments.php?" ++ "id=" ++ ?s)
    with ("http://myanimelist.net/comments.php?id=" ++ s).
  rewrite Hget. cbn [not_none]. rewrite contains_marker. cbn [negb].
  by rewrite remove_marker.
Qed.

(** ** More runs on the test bench *)

(** WITNESSES *)
(** A page with no sidebar at all. *)
Lemma parse_sidebar_without_user_profile_witness :
  parse_sidebar (H:=test_utilities) (self permissive_satou)
    (page_with None None (Raise AttributeError)) = Raise AttributeError.
Proof.
  apply (parse_sidebar_without_user_profile (H:=test_utilities)); reflexivity.
Defined.

(** A sidebar with two status lists. *)
Lemma parse_sidebar_few_status_lists_witness :
  parse_sidebar (H:=test_utilities) (self permissive_satou)
    (page_with (Some (sidebar_with [[]; []] None)) None (Raise AttributeError))
  = Raise IndexError.
Proof.
  apply (parse_sidebar_few_status_lists (H:=test_utilities) _ _
           (sidebar_with [[]; []] None)); [reflexivity..|].
  simpl. lia.
Defined.

(** satou's sidebar with a website link that has no text. *)
Lemma parse_sidebar_website_raises_witness :
  parse_sidebar (H:=test_utilities) (self permissive_satou)
    (page_with (Some (sidebar_with (find_all_user_status satou_sidebar)
                        (Some (Raise AttributeError))))
       None (Raise AttributeError))
  = Raise AttributeError.
Proof.
  apply (parse_sidebar_website_raises (H:=test_utilities) _ _
           (sidebar_with (find_all_user_status satou_sidebar)
              (Some (Raise AttributeError)))); [reflexivity..| |reflexivity].
  simpl. lia.
Defined.

(** satou's sidebar has no birthday. *)
Lemma parse_sidebar_general_fields_witness :
  ∃ user_info,
    parse_sidebar (H:=test_utilities) (self permissive_satou) satou_profile = Ok user_info ∧
    user_info !! "birthday" = Some VNone.
Proof.
  destruct (returns_Ok (parse_sidebar (H:=test_utilities) (self permissive_satou)
                          satou_profile)) as [user_info Hparse];
    [vm_compute; reflexivity|].
  exists user_info. split; [done|].
  destruct (parse_sidebar_general_fields (H:=test_utilities) _ _ _ Hparse)
    as (panel & general_elt & Hpanel & Hgeneral & Hfields).
  rewrite (Hfields "birthday" "Birthday" (parse_profile_date (Utilities:=test_utilities)))
    by (apply list_elem_of_further, list_elem_of_here).
  simpl in Hpanel. injection Hpanel as <-.
  simpl in Hgeneral. by injection Hgeneral as <-.
Defined.

(** satou is in three clubs. *)
Lemma parse_sidebar_count_fields_witness :
  ∃ user_info,
    parse_sidebar (H:=test_utilities) (self permissive_satou) satou_profile = Ok user_info ∧
    user_info !! "num_clubs" = Some (VInt 3).
Proof.
  destruct (returns_Ok (parse_sidebar (H:=test_utilities) (self permissive_satou)
                          satou_profile)) as [user_info Hparse];
    [vm_compute; reflexivity|].
  exists user_info. split; [done|].
  destruct (parse_sidebar_count_fields (H:=test_utilities) _ _ _ Hparse)
    as (panel & stats_elt & Hpanel & Hstats & Hcounts).
  destruct (Hcounts "num_clubs" "Clubs") as (Hcount & _).
  { repeat first [apply list_elem_of_here | apply list_elem_of_further]. }
  apply (Hcount "3").
  - simpl in Hpanel. injection Hpanel as <-.
    simpl in Hstats. injection Hstats as <-. reflexivity.
  - vm_compute. reflexivity.
Defined.

(** satou's 1,234 forum posts. *)
Lemma sidebar_count_with_separators_witness :
  ∃ user_info,
    parse_sidebar (H:=test_utilities) (self permissive_satou) satou_profile = Ok user_info ∧
    user_info !! "num_forum_posts" = Some (VInt 1234).
Proof.
  destruct (returns_Ok (parse_sidebar (H:=test_utilities) (self permissive_satou)
                          satou_profile)) as [user_info Hparse];
    [vm_compute; reflexivity|].
  exists user_info. split; [done|].
  apply (sidebar_count_with_separators (H:=test_utilities) (self permissive_satou)
           satou_profile user_info satou_sidebar
           [ ("Forum Posts", Ok "1,234"); ("Reviews", Ok "2");
             ("Recommendations", Ok "0"); ("Blog Posts", Ok "7");
             ("Clubs", Ok "3") ]
           "num_forum_posts" "Forum Posts" "1,234" 1234);
    [done|reflexivity|reflexivity|apply list_elem_of_here|reflexivity|
     vm_compute; reflexivity].
Defined.

(** satou's sidebar has no website link. *)
Lemma parse_sidebar_website_witness :
  ∃ user_info,
    parse_sidebar (H:=test_utilities) (self permissive_satou) satou_profile = Ok user_info ∧
    user_info !! "website" = None.
Proof.
  destruct (returns_Ok (parse_sidebar (H:=test_utilities) (self permissive_satou)
                          satou_profile)) as [user_info Hparse];
    [vm_compute; reflexivity|].
  exists user_info. split; [done|].
  destruct (parse_sidebar_website (H:=test_utilities) _ _ _ Hparse)
    as (panel & Hpanel & _ & ->).
  simpl in Hpanel. by injection Hpanel as <-.
Defined.

(** satou's profile has a sidebar, so [parse] returns. *)
Lemma permissive_parsers_return_witness :
  ∃ user_info,
    parse (H:=test_utilities) (self permissive_satou) satou_profile = Ok user_info.
Proof.
  destruct (permissive_parsers_return (H:=test_utilities) (self permissive_satou)
              satou_profile) as [[_ Hparse] _]; [reflexivity|].
  apply Hparse.
  apply (returns_Ok (parse_sidebar (H:=test_utilities) (self permissive_satou)
                       satou_profile)).
  vm_compute. reflexivity.
Defined.

(** What a strict session makes of satou's sidebar, a permissive one
    makes too. *)
Lemma strict_result_is_permissive_result_witness :
  ∃ user_info,
    parse_sidebar (H:=test_utilities) (self strict_satou) satou_profile = Ok user_info ∧
    parse_sidebar (H:=test_utilities) (permissive (self strict_satou)) satou_profile
    = Ok user_info.
Proof.
  destruct (returns_Ok (parse_sidebar (H:=test_utilities) (self strict_satou)
                          satou_profile)) as [user_info Hparse];
    [vm_compute; reflexivity|].
  exists user_info. split; [done|].
  apply (strict_result_is_permissive_result (H:=test_utilities) _ _ _ parse_sidebar);
    [apply list_elem_of_here|reflexivity|exact Hparse].
Defined.

(** A clubs page without clubs. *)
Lemma list_parsers_set_their_entry_witness :
  ∃ user_info l,
    parse_clubs (H:=test_utilities) (self permissive_satou)
      (page_with (Some satou_sidebar) None (Ok (column_with [] []))) = Ok user_info ∧
    user_info !! "clubs" = Some (VList l).
Proof.
  destruct (returns_Ok (parse_clubs (H:=test_utilities) (self permissive_satou)
              (page_with (Some satou_sidebar) None (Ok (column_with [] [])))))
    as [user_info Hparse]; [vm_compute; reflexivity|].
  destruct (list_parsers_set_their_entry (H:=test_utilities) (self permissive_satou)
              (page_with (Some satou_sidebar) None (Ok (column_with [] []))) user_info)
    as (_ & Hclubs & _).
  destruct (Hclubs Hparse) as [l Hl]. by exists user_info, l.
Defined.

(** Three reviews, the second with a rating that cannot be read. *)
Lemma parse_reviews_stops_at_first_bad_row_witness :
  ∃ user_info,
    parse_reviews (H:=test_utilities) (self permissive_satou)
      (reviews_page [test_review "anime" 1 (Ok 9);
                     test_review "manga" 2 (Raise ValueError);
                     test_review "anime" 3 (Ok 5)]) = Ok user_info ∧
    rating anime_1 (attr user_info "reviews") = Some (VInt 9) ∧
    rating (VObj "anime" (IdKey 3) ∅) (attr user_info "reviews") = None.
Proof.
  destruct (returns_Ok (parse_reviews (H:=test_utilities) (self permissive_satou)
      (reviews_page [test_review "anime" 1 (Ok 9);
                     test_review "manga" 2 (Raise ValueError);
                     test_review "anime" 3 (Ok 5)])))
    as [user_info Hparse]; [vm_compute; reflexivity|].
  exists user_info. split; [done|].
  pose proof (parse_reviews_stops_at_first_bad_row (H:=test_utilities) _ _ _ _
                Hparse eq_refl) as Hreviews.
  unfold attr. rewrite Hreviews. split; vm_compute; reflexivity.
Defined.

(** A recommendations page with one div. *)
Lemma parse_recommendations_skips_first_div_witness :
  ∃ user_info,
    parse_recommendations (H:=test_utilities) (self permissive_satou)
      (page_with (Some satou_sidebar) None
         (Ok (column_with [test_recommendation] []))) = Ok user_info ∧
    user_info !! "recommendations" = Some (VDict []).
Proof.
  destruct (returns_Ok (parse_recommendations (H:=test_utilities) (self permissive_satou)
              (page_with (Some satou_sidebar) None
                 (Ok (column_with [test_recommendation] [])))))
    as [user_info Hparse]; [vm_compute; reflexivity|].
  exists user_info. split; [done|].
  apply (parse_recommendations_skips_first_div (H:=test_utilities) _ _ _
           (column_with [test_recommendation] []) Hparse). reflexivity.
Defined.

(** A friends page whose first friend has no name. *)
Lemma parse_friends_suppresses_friend_error_witness :
  ∃ sidebar,
    parse_sidebar (H:=test_utilities) (self permissive_satou)
      (page_with (Some satou_sidebar) None
         (Ok (column_with [] [nameless_friend]))) = Ok sidebar ∧
    parse_friends (H:=test_utilities) (self permissive_satou)
      (page_with (Some satou_sidebar) None
         (Ok (column_with [] [nameless_friend])))
    = Ok (<["friends" := VDict []]> sidebar).
Proof.
  destruct (returns_Ok (parse_sidebar (H:=test_utilities) (self permissive_satou)
      (page_with (Some satou_sidebar) None
         (Ok (column_with [] [nameless_friend])))))
    as [sidebar Hsidebar]; [vm_compute; reflexivity|].
  exists sidebar. split; [done|].
  apply (parse_friends_suppresses_friend_error (H:=test_utilities)
           (self permissive_satou) _ sidebar (column_with [] [nameless_friend])
           nameless_friend [] "" (InvalidUserError (VUnicode "")));
    [exact Hsidebar|reflexivity..].
Defined.

(** A statistics section without blocks. *)
Lemma parse_stats_entries_witness :
  ∃ user_info,
    parse (H:=test_utilities) (self permissive_satou)
      (page_with (Some satou_sidebar)
         (Some {| find_stats_anime := None; find_stats_manga := None |})
         (Raise AttributeError)) = Ok user_info ∧
    user_info !! "anime_stats" = Some (VDict []).
Proof.
  destruct (returns_Ok (parse (H:=test_utilities) (self permissive_satou)
              (page_with (Some satou_sidebar)
                 (Some {| find_stats_anime := None; find_stats_manga := None |})
                 (Raise AttributeError))))
    as [user_info Hparse]; [vm_compute; reflexivity|].
  exists user_info. split; [done|].
  destruct (parse_stats_entries (H:=test_utilities) _ _ _ Hparse)
    as [(d & Hd & Hempty) _].
  rewrite Hd, Hempty; done.
Defined.

(** satou's profile has neither an about section nor favorites. *)
Lemma parse_about_and_favorites_witness :
  ∃ user_info,
    parse (H:=test_utilities) (self permissive_satou) satou_profile = Ok user_info ∧
    user_info !! "about" = Some (VUnicode "") ∧
    user_info !! "favorite_anime" = None.
Proof.
  destruct (returns_Ok (parse (H:=test_utilities) (self permissive_satou) satou_profile))
    as [user_info Hparse]; [vm_compute; reflexivity|].
  exists user_info. split; [done|].
  destruct (parse_about_and_favorites (H:=test_utilities) _ _ _ Hparse)
    as [Habout Hfavorites].
  split; [by apply Habout|]. apply Hfavorites; [reflexivity|apply list_elem_of_here].
Defined.

(** A site that gives the same review for every page number. *)
Lemma load_reviews_never_stops_witness :
  load_reviews (H:=test_utilities) 1000 looping_satou = None.
Proof.
  destruct (returns_Ok (parse_reviews (H:=test_utilities) (self looping_satou)
                          (reviews_page [test_review "anime" 1 (Ok 9)])))
    as [user_info Hparse]; [vm_compute; reflexivity|].
  destruct (returns_Ok (reviews_of user_info)) as [reviews Hreviews].
  { revert Hparse. generalize user_info.
    assert (match parse_reviews (H:=test_utilities) (self looping_satou)
                    (reviews_page [test_review "anime" 1 (Ok 9)]) with
            | Ok parsed => returns (reviews_of parsed)
            | Raise _ => false
            end = true) as Hdict by (vm_compute; reflexivity).
    intros user_info' Hparse'. by rewrite Hparse' in Hdict. }
  apply (load_reviews_never_stops (H:=test_utilities) looping_satou
           (reviews_page [test_review "anime" 1 (Ok 9)]) user_info reviews).
  - reflexivity.
  - exact Hparse.
  - exact Hreviews.
  - assert (match parse_reviews (H:=test_utilities) (self looping_satou)
                    (reviews_page [test_review "anime" 1 (Ok 9)]) with
            | Ok parsed =>
                match reviews_of parsed with
                | Ok (_ :: _) => true
                | _ => false
                end
            | Raise _ => false
            end = true) as Hne by (vm_compute; reflexivity).
    rewrite Hparse, Hreviews in Hne. by destruct reviews.
Defined.

(** The location of page 0 is the one the user has after the load. *)
Lemma load_reviews_sets_first_page_only_witness :
  ∃ st,
    load_reviews (H:=test_utilities) 5 permissive_satou = Some (Ok tt, st) ∧
    attr (attrs (self st)) "location" = VUnicode "Tokyo".
Proof.
  destruct (load_reviews_sets_first_page_only (H:=test_utilities) permissive_satou
              _ _ 5 serves_two_review_pages) as (st & Hload & Hattrs).
  { simpl. lia. }
  exists st. split; [exact Hload|]. rewrite Hattrs by done. vm_compute. reflexivity.
Defined.

(** After the profile is loaded, reading the gender makes no request. *)
Lemma any_load_caches_gender_witness :
  ∃ st,
    call (H:=test_utilities) Load 1 permissive_satou = Some (Ok tt, st) ∧
    ∀ fuel, read (H:=test_utilities) fuel "gender" st =
              Some (Ok (attr (attrs (self st)) "gender"), st).
Proof.
  assert (match call (H:=test_utilities) Load 1 permissive_satou with
          | Some (Ok _, _) => true
          | _ => false
          end = true) as Hcall by (vm_compute; reflexivity).
  destruct (call (H:=test_utilities) Load 1 permissive_satou)
    as [[[[]|e] st]|] eqn:Hrun; [|done..].
  exists st. split; [done|].
  destruct (any_load_caches_gender (H:=test_utilities) _ _ _ _ Hrun)
    as (gender & <- & _ & Hread). exact Hread.
Defined.

(** The heading of satou's comments page. *)
Lemma find_username_reads_heading_witness :
  find_username_from_user_id (λ _, Ok (Some "satou's Comments")) 4129 = Ok "satou".
Proof.
  apply (find_username_reads_heading (λ _, Ok (Some "satou's Comments")) 4129 "satou");
    reflexivity.
Defined.

